(** * rmvl / opcua: the typed variable container, the publisher and the
      client's monitored-item bookkeeping

    A shallow embedding of
      - [include/rmvl/opcua/variable.hpp]  ([VariableType], [Variable]),
      - [src/publisher.cpp]                ([Publisher<TransportID::UDP_UADP>]),
      - [include/rmvl/opcua/client.hpp]    ([Client], [ClientTimer]).

    Conventions.
      - A w-bit unsigned integer is a [Z] together with its wrap-around
        ([to_UInt32], [to_UInt16], [to_size_t]).  [size_t] is 64 bits wide.
      - [std::any] is a dependent pair of a C++ type and a value of it.
      - The open62541 server is an abstract state [S] driven through a record
        of the library entry points the wrapper calls ([UA_Library]); every
        call and its status are appended to a trace.
      - A C++ exception is the [Raise] outcome of the [M] monad. *)

From Stdlib Require Import ZArith String List Lia Eqdep_dec.
From Stdlib Require Import Floats.SpecFloat.
From stdpp Require Import gmap strings list.

Local Open Scope string_scope.
Local Open Scope list_scope.
Local Open Scope Z_scope.

(** ** Machine integers *)

Definition to_UInt8 (z : Z) : Z := z mod 2 ^ 8.
Definition to_UInt16 (z : Z) : Z := z mod 2 ^ 16.
Definition to_UInt32 (z : Z) : Z := z mod 2 ^ 32.
Definition to_size_t (z : Z) : Z := z mod 2 ^ 64.

(** ** Outcomes: a returned value or a thrown exception *)

(** [RMVL_StsNullPtr] is the only code of [rmvl/core/util.hpp] used here. *)
Inductive rmvl_code := RMVL_StsNullPtr.

Inductive exception :=
| bad_any_cast
| rm_Exception (code : rmvl_code) (msg : string).

Inductive outcome (A : Type) :=
| Ret (a : A)
| Raise (e : exception).
Arguments Ret {A} a.
Arguments Raise {A} e.

(** ** C++ types and their values *)

Inductive fundamental :=
| t_void | t_nullptr_t | t_bool
| t_char | t_signed_char | t_unsigned_char | t_wchar_t | t_char16_t | t_char32_t
| t_short | t_unsigned_short | t_int | t_unsigned_int
| t_long | t_unsigned_long | t_long_long | t_unsigned_long_long
| t_float | t_double | t_long_double.

(** The decayed types a caller can hand to the constructors and to
    [cast<Tp>]: fundamental types, pointers to characters and vectors. *)
Inductive cpp_type :=
| Fundamental (t : fundamental)
| CharPtr (is_const : bool)
| Vector (elem : cpp_type).

Abbreviation const_char_ptr := (CharPtr true).

#[global] Instance fundamental_eq_dec : EqDecision fundamental.
Proof. solve_decision. Defined.

#[global] Instance cpp_type_eq_dec : EqDecision cpp_type.
Proof. solve_decision. Defined.

(** Integers are their mathematical value, floating-point numbers their
    IEEE 754 datum, a pointer its address. *)
Definition fundamental_value (t : fundamental) : Type :=
  match t with
  | t_void => Empty_set
  | t_nullptr_t => unit
  | t_bool => bool
  | t_float | t_double | t_long_double => spec_float
  | _ => Z
  end.

Fixpoint cpp_value (T : cpp_type) : Type :=
  match T with
  | Fundamental t => fundamental_value t
  | CharPtr _ => Z
  | Vector E => list (cpp_value E)
  end.

(** [std::is_fundamental_v] and the two [enable_if] guards of the
    constructors (variable.hpp:78-79, 88, 126-127, 136). *)
Definition is_fundamental_v (T : cpp_type) : bool :=
  match T with Fundamental _ => true | _ => false end.

Definition scalar_enabled (DecayT : cpp_type) : bool :=
  is_fundamental_v DecayT || bool_decide (DecayT = const_char_ptr).

Definition vector_enabled (Tp : cpp_type) : bool :=
  is_fundamental_v Tp && negb (bool_decide (Fundamental t_bool = Tp)).

(** ** std::any *)

Inductive any :=
| any_empty
| any_holds (T : cpp_type) (v : cpp_value T).

Definition has_value (a : any) : bool :=
  match a with any_empty => false | any_holds _ _ => true end.

(** [std::any_cast<T>(const any &)]: the held value when the held type is
    [T], [std::bad_any_cast] otherwise (also for an empty [any]). *)
Definition any_cast (T : cpp_type) (a : any) : outcome (cpp_value T) :=
  match a with
  | any_empty => Raise bad_any_cast
  | any_holds T' v =>
      match decide (T' = T) with
      | left e => Ret (eq_rect T' cpp_value v T e)
      | right _ => Raise bad_any_cast
      end
  end.

(** ** [enum AccessLevel : uint8_t] (variable.hpp:28-32) *)

Definition VARIABLE_READ : Z := 1.
Definition VARIABLE_WRITE : Z := 2.

(** ** The variable container *)

Section VariableModel.

(** [rm::DataType] lives in [utilities.hpp]: its set of values, its default
    value and its constructor from a [std::type_info] are taken as given. *)
Context {DataType : Type}.
Variable DataType_default : DataType.
Variable DataType_of_typeid : cpp_type -> DataType.

(** *** [class VariableType] (variable.hpp:35-112) *)

Record VariableType := mkVariableType {
  vt_ns : Z;
  vt_browse_name : string;
  vt_display_name : string;
  vt_description : string;
  vt_value : any;
  vt_data_type : DataType;
  vt_size : Z
}.

(** [arr.size()] of a [std::vector]: a [size_t]. *)
Definition vector_size {A : Type} (arr : list A) : Z :=
  to_size_t (Z.of_nat (length arr)).

(** [VariableType() = default]: the default member initialisers. *)
Definition VariableType_default : VariableType :=
  {| vt_ns := 1; vt_browse_name := ""; vt_display_name := "";
     vt_description := ""; vt_value := any_empty;
     vt_data_type := DataType_default; vt_size := 0 |}.

(** [VariableType(Tp val)] (variable.hpp:80). *)
Definition VariableType_scalar (DecayT : cpp_type) (val : cpp_value DecayT)
  : VariableType :=
  {| vt_ns := 1; vt_browse_name := ""; vt_display_name := "";
     vt_description := "";
     vt_value := any_holds DecayT val;
     vt_data_type := DataType_of_typeid DecayT;
     vt_size := 1 |}.

(** [VariableType(const std::vector<Tp> &arr)] (variable.hpp:89): the
    [size_t] length initialises a [UA_UInt32]. *)
Definition VariableType_vector (Tp : cpp_type) (arr : list (cpp_value Tp))
  : VariableType :=
  {| vt_ns := 1; vt_browse_name := ""; vt_display_name := "";
     vt_description := "";
     vt_value := any_holds (Vector Tp) arr;
     vt_data_type := DataType_of_typeid Tp;
     vt_size := to_UInt32 (vector_size arr) |}.

Definition VariableType_data (vt : VariableType) : any := vt_value vt.
Definition VariableType_getDataType (vt : VariableType) : DataType :=
  vt_data_type vt.
Definition VariableType_empty (vt : VariableType) : bool := vt_size vt =? 0.
Definition VariableType_size (vt : VariableType) : Z := vt_size vt.
Definition VariableType_cast (Tp : cpp_type) (val : VariableType)
  : outcome (cpp_value Tp) :=
  any_cast Tp (VariableType_data val).

(** *** [class Variable] (variable.hpp:115-254) *)

Record rm_Variable := mkVariable {
  ns : Z;
  browse_name : string;
  display_name : string;
  description : string;
  access_level : Z;
  _type : VariableType;
  _value : any;
  _data_type : DataType;
  _size : Z
}.

(** [Variable() = default]. *)
Definition Variable_default : rm_Variable :=
  {| ns := 1; browse_name := ""; display_name := ""; description := "";
     access_level := 0; _type := VariableType_default;
     _value := any_empty; _data_type := DataType_default; _size := 0 |}.

(** [Variable(Tp val)] (variable.hpp:128). *)
Definition Variable_scalar (DecayT : cpp_type) (val : cpp_value DecayT)
  : rm_Variable :=
  {| ns := 1; browse_name := ""; display_name := ""; description := "";
     access_level := to_UInt8 3;
     _type := VariableType_default;
     _value := any_holds DecayT val;
     _data_type := DataType_of_typeid DecayT;
     _size := 1 |}.

(** [Variable(const std::vector<Tp> &arr)] (variable.hpp:137). *)
Definition Variable_vector (Tp : cpp_type) (arr : list (cpp_value Tp))
  : rm_Variable :=
  {| ns := 1; browse_name := ""; display_name := ""; description := "";
     access_level := to_UInt8 3;
     _type := VariableType_default;
     _value := any_holds (Vector Tp) arr;
     _data_type := DataType_of_typeid Tp;
     _size := to_UInt32 (vector_size arr) |}.

(** The private [explicit Variable(const VariableType &vtype)]
    (variable.hpp:238). *)
Definition Variable_of_type (vtype : VariableType) : rm_Variable :=
  {| ns := 1; browse_name := ""; display_name := ""; description := "";
     access_level := to_UInt8 3;
     _type := vtype;
     _value := VariableType_data vtype;
     _data_type := VariableType_getDataType vtype;
     _size := VariableType_size vtype |}.

(** [static Variable from(const VariableType &vtype)] (variable.hpp:145). *)
Definition Variable_from (vtype : VariableType) : rm_Variable :=
  Variable_of_type vtype.

Definition Variable_empty (v : rm_Variable) : bool := _size v =? 0.
Definition Variable_type (v : rm_Variable) : VariableType := _type v.
Definition Variable_data (v : rm_Variable) : any := _value v.
Definition Variable_getDataType (v : rm_Variable) : DataType := _data_type v.
Definition Variable_size (v : rm_Variable) : Z := _size v.

(** [cast<Tp>(val)], [val.cast<Tp>()] (variable.hpp:176, 185). *)
Definition Variable_cast (Tp : cpp_type) (val : rm_Variable)
  : outcome (cpp_value Tp) :=
  any_cast Tp (Variable_data val).

(** [operator Tp()] and [operator std::vector<Tp>()] (variable.hpp:189, 193). *)
Definition Variable_operator_Tp (Tp : cpp_type) (v : rm_Variable)
  : outcome (cpp_value Tp) :=
  any_cast Tp (_value v).

Definition Variable_operator_vector (Tp : cpp_type) (v : rm_Variable)
  : outcome (list (cpp_value Tp)) :=
  any_cast (Vector Tp) (_value v).

(** [operator==] is only declared in the header; its result is taken as
    given.  [operator!=] is its negation (variable.hpp:163). *)
Variable Variable_operator_eq : rm_Variable -> rm_Variable -> bool.

Definition Variable_operator_ne (self val : rm_Variable) : bool :=
  negb (Variable_operator_eq self val).

(** Direct assignment to the public field [access_level], a [uint8_t]
    (variable.hpp:235). *)
Definition Variable_set_access_level (self : rm_Variable) (level : Z)
  : rm_Variable :=
  {| ns := ns self; browse_name := browse_name self;
     display_name := display_name self; description := description self;
     access_level := to_UInt8 level;
     _type := _type self; _value := _value self;
     _data_type := _data_type self; _size := _size self |}.

(** The implicitly defined [operator=] (the class declares none, so copy
    and move assignment are the member-wise ones): the object takes every
    member of the right-hand side.  [var = x] for a value [x] builds the
    right-hand side with the converting constructor. *)
Definition Variable_operator_assign (self val : rm_Variable) : rm_Variable :=
  val.

(** The member functions of [Variable]: the declared ones, all of them
    [const], and the implicit assignment, as calls that hand back the
    object they were called on as the call leaves it. *)
Inductive Variable_method :=
| call_operator_assign (val : rm_Variable)
| call_operator_eq (val : rm_Variable)
| call_operator_ne (val : rm_Variable)
| call_empty
| call_cast (Tp : cpp_type)
| call_operator_Tp (Tp : cpp_type)
| call_operator_vector (Tp : cpp_type)
| call_type
| call_data
| call_getDataType
| call_size.

Inductive Variable_result :=
| res_this
| res_bool (b : bool)
| res_value (Tp : cpp_type) (r : outcome (cpp_value Tp))
| res_type (vt : VariableType)
| res_any (a : any)
| res_DataType (d : DataType)
| res_UInt32 (n : Z).

Definition Variable_call (m : Variable_method) (self : rm_Variable)
  : Variable_result * rm_Variable :=
  match m with
  | call_operator_assign val => (res_this, Variable_operator_assign self val)
  | call_operator_eq val => (res_bool (Variable_operator_eq self val), self)
  | call_operator_ne val => (res_bool (Variable_operator_ne self val), self)
  | call_empty => (res_bool (Variable_empty self), self)
  | call_cast Tp => (res_value Tp (Variable_cast Tp self), self)
  | call_operator_Tp Tp => (res_value Tp (Variable_operator_Tp Tp self), self)
  | call_operator_vector Tp =>
      (res_value (Vector Tp) (Variable_operator_vector Tp self), self)
  | call_type => (res_type (Variable_type self), self)
  | call_data => (res_any (Variable_data self), self)
  | call_getDataType => (res_DataType (Variable_getDataType self), self)
  | call_size => (res_UInt32 (Variable_size self), self)
  end.

(** The declared member functions are [const]; the assignment is not. *)
Definition const_member (m : Variable_method) : bool :=
  match m with call_operator_assign _ => false | _ => true end.

End VariableModel.

Arguments VariableType : clear implicits.
Arguments rm_Variable : clear implicits.

(** ** open62541 data handed to the PubSub entry points *)

Definition UA_StatusCode := Z.
Definition UA_STATUSCODE_GOOD : UA_StatusCode := 0.

(** A [UA_Server *]: an address, [nullptr] being 0. *)
Definition UA_Server_ptr := Z.
Definition nullptr : UA_Server_ptr := 0.

Inductive UA_Identifier :=
| numeric (n : Z)
| string_id (s : string)
| guid (g : Z)
| byteString (b : string).

Record UA_NodeId := mkNodeId {
  namespaceIndex : Z;
  identifier : UA_Identifier
}.

(** [std::string::c_str] read as a C string: the characters before the
    first NUL.  [UA_String_fromChars] copies exactly those. *)
Fixpoint c_str (s : string) : string :=
  match s with
  | EmptyString => EmptyString
  | String c rest =>
      if Ascii.eqb c Ascii.zero then EmptyString else String c (c_str rest)
  end.

Definition UA_String_fromChars (chars : string) : string := chars.

Record PublishedDataSet := mkPublishedDataSet {
  pd_name : string;
  pd_node_id : UA_NodeId
}.

Inductive UA_DataSetFieldType :=
| UA_PUBSUB_DATASETFIELD_VARIABLE
| UA_PUBSUB_DATASETFIELD_EVENT.

Definition UA_ATTRIBUTEID_VALUE : Z := 13.

Record UA_DataSetFieldConfig := mkDataSetFieldConfig {
  dataSetFieldType : UA_DataSetFieldType;
  fieldNameAlias : string;
  promotedField : bool;
  publishedVariable : UA_NodeId;
  attributeId : Z
}.

Record UA_PubSubConnectionConfig := mkPubSubConnectionConfig {
  conn_name : string;
  transportProfileUri : string;
  conn_enabled : bool;
  address_networkInterface : string;
  address_url : string;
  publisherId_numeric : Z
}.

Inductive UA_PublishedDataSetType :=
| UA_PUBSUB_DATASET_PUBLISHEDITEMS
| UA_PUBSUB_DATASET_PUBLISHEDEVENTS.

Record UA_PublishedDataSetConfig := mkPublishedDataSetConfig {
  pds_name : string;
  publishedDataSetType : UA_PublishedDataSetType
}.

(** Bits of [UA_UadpNetworkMessageContentMask] (OPC UA part 14). *)
Definition UA_UADPNETWORKMESSAGECONTENTMASK_PUBLISHERID : Z := 1.
Definition UA_UADPNETWORKMESSAGECONTENTMASK_GROUPHEADER : Z := 2.
Definition UA_UADPNETWORKMESSAGECONTENTMASK_WRITERGROUPID : Z := 4.
Definition UA_UADPNETWORKMESSAGECONTENTMASK_PAYLOADHEADER : Z := 64.

Inductive UA_PubSubEncodingType := UA_PUBSUB_ENCODING_UADP | UA_PUBSUB_ENCODING_JSON.

Record UA_WriterGroupConfig := mkWriterGroupConfig {
  wg_name : string;
  publishingInterval : spec_float;
  wg_enabled : bool;
  writerGroupId : Z;
  encodingMimeType : UA_PubSubEncodingType;
  networkMessageContentMask : Z
}.

Record UA_DataSetWriterConfig := mkDataSetWriterConfig {
  dsw_name : string;
  dataSetWriterId : Z;
  keyFrameCount : Z
}.

(** The calls the publisher makes into the library, with their arguments. *)
Inductive ua_call :=
| call_addPubSubTransportLayer
| call_addPubSubConnection (cfg : UA_PubSubConnectionConfig)
| call_addPublishedDataSet (cfg : UA_PublishedDataSetConfig)
| call_addDataSetField (pds : UA_NodeId) (cfg : UA_DataSetFieldConfig)
| call_addWriterGroup (conn : UA_NodeId) (cfg : UA_WriterGroupConfig)
| call_setWriterGroupOperational (wg : UA_NodeId)
| call_addDataSetWriter (wg pds : UA_NodeId) (cfg : UA_DataSetWriterConfig).

(** The [UA_LOG_ERROR] lines of publisher.cpp, by their message. *)
Inductive log_line :=
| Failed_to_add_connection (st : UA_StatusCode)
| Failed_to_add_published_dataset (st : UA_StatusCode)
| Failed_to_add_dataset_field (name : string) (st : UA_StatusCode)
| Failed_to_add_writer_group (st : UA_StatusCode)
| Failed_to_set_writer_group_operational (st : UA_StatusCode)
| Failed_to_add_dataset_writer (st : UA_StatusCode).

Inductive event :=
| Called (c : ua_call) (st : UA_StatusCode)
| Logged (l : log_line).

(** What a library call answers: its status code and, for a call with an
    output node id, what it stored there ([None]: left as it was). *)
Definition ua_answer : Type := UA_StatusCode * option UA_NodeId.

(** The wrapped library: the entry points used by publisher.cpp, as
    transitions of the library's own state [S]. *)
Record UA_Library (S : Type) := mkLibrary {
  UA_NodeId_isNull : UA_NodeId -> bool;
  UA_ServerConfig_addPubSubTransportLayer :
    S -> UA_Server_ptr -> UA_StatusCode * S;
  UA_Server_addPubSubConnection :
    S -> UA_Server_ptr -> UA_PubSubConnectionConfig -> ua_answer * S;
  UA_Server_addPublishedDataSet :
    S -> UA_Server_ptr -> UA_PublishedDataSetConfig -> ua_answer * S;
  UA_Server_addDataSetField :
    S -> UA_Server_ptr -> UA_NodeId -> UA_DataSetFieldConfig -> ua_answer * S;
  UA_Server_addWriterGroup :
    S -> UA_Server_ptr -> UA_NodeId -> UA_WriterGroupConfig -> ua_answer * S;
  UA_Server_setWriterGroupOperational :
    S -> UA_Server_ptr -> UA_NodeId -> UA_StatusCode * S;
  UA_Server_addDataSetWriter :
    S -> UA_Server_ptr -> UA_NodeId -> UA_NodeId -> UA_DataSetWriterConfig ->
    ua_answer * S
}.
Arguments UA_NodeId_isNull {S}.
Arguments UA_ServerConfig_addPubSubTransportLayer {S}.
Arguments UA_Server_addPubSubConnection {S}.
Arguments UA_Server_addPublishedDataSet {S}.
Arguments UA_Server_addDataSetField {S}.
Arguments UA_Server_addWriterGroup {S}.
Arguments UA_Server_setWriterGroupOperational {S}.
Arguments UA_Server_addDataSetWriter {S}.

(** ** [Publisher<TransportID::UDP_UADP>] (publisher.cpp) *)

Record Publisher := mkPublisher {
  _server : UA_Server_ptr;
  _name : string;
  _connection_id : UA_NodeId;
  _pds_id : UA_NodeId;
  _wg_id : UA_NodeId;
  _dsw_id : UA_NodeId
}.

Definition store (out : option UA_NodeId) (old : UA_NodeId) : UA_NodeId :=
  match out with Some id => id | None => old end.

Definition set_connection_id (out : option UA_NodeId) (p : Publisher) :=
  {| _server := _server p; _name := _name p;
     _connection_id := store out (_connection_id p);
     _pds_id := _pds_id p; _wg_id := _wg_id p; _dsw_id := _dsw_id p |}.
Definition set_pds_id (out : option UA_NodeId) (p : Publisher) :=
  {| _server := _server p; _name := _name p;
     _connection_id := _connection_id p;
     _pds_id := store out (_pds_id p); _wg_id := _wg_id p;
     _dsw_id := _dsw_id p |}.
Definition set_wg_id (out : option UA_NodeId) (p : Publisher) :=
  {| _server := _server p; _name := _name p;
     _connection_id := _connection_id p;
     _pds_id := _pds_id p; _wg_id := store out (_wg_id p);
     _dsw_id := _dsw_id p |}.
Definition set_dsw_id (out : option UA_NodeId) (p : Publisher) :=
  {| _server := _server p; _name := _name p;
     _connection_id := _connection_id p;
     _pds_id := _pds_id p; _wg_id := _wg_id p;
     _dsw_id := store out (_dsw_id p) |}.
Definition set_name (n : string) (p : Publisher) :=
  {| _server := _server p; _name := n;
     _connection_id := _connection_id p;
     _pds_id := _pds_id p; _wg_id := _wg_id p; _dsw_id := _dsw_id p |}.

Section PublisherModel.

Context {S : Type}.

(** The state a member function runs in: the object and the library. *)
Record world := mkWorld {
  this : Publisher;
  server : S
}.

(** A computation returns or throws, leaves a new state and emits the
    library calls and log lines it made, in order. *)
Definition M (A : Type) : Type := world -> outcome A * world * list event.

Definition ret {A} (a : A) : M A := fun w => (Ret a, w, []).

Definition bind {A B} (m : M A) (k : A -> M B) : M B :=
  fun w =>
    match m w with
    | (Ret a, w1, t1) =>
        match k a w1 with (r, w2, t2) => (r, w2, t1 ++ t2) end
    | (Raise e, w1, t1) => (Raise e, w1, t1)
    end.

Definition get_this : M Publisher := fun w => (Ret (this w), w, []).

Definition UA_LOG_ERROR (l : log_line) : M unit :=
  fun w => (Ret tt, w, [Logged l]).

(** Modelled from the spec: the macro [RMVL_Error] of [rmvl/core/util.hpp]
    is absent; errors are translated into an exception outcome, so it ends
    the call by throwing an [rm::Exception] with the given code. *)
Definition RMVL_Error {A} (code : rmvl_code) (msg : string) : M A :=
  fun w => (Raise (rm_Exception code msg), w, []).

End PublisherModel.

Declare Scope pub_scope.
Delimit Scope pub_scope with pub.
Notation "x <- m ;; k" := (bind m (fun x => k))
  (at level 100, m at next level, right associativity) : pub_scope.
Notation "m ;;; k" := (bind m (fun _ => k))
  (at level 100, right associativity) : pub_scope.

Section PublisherCode.

Context {S : Type}.
Variable lib : UA_Library S.
(** [_strhash] is a [std::hash<std::string>]: implementation defined, with
    a [size_t] result.  [KEY_FRAME_COUNT] is [para::opcua_param]'s. *)
Variable std_hash : string -> Z.
Variable KEY_FRAME_COUNT : Z.

Local Open Scope pub_scope.

Definition _strhash (s : string) : Z := to_size_t (std_hash s).

(** A library call with an output node id: run it on the library state,
    store the output in the member [set] names, emit the call. *)
Definition invoke (f : S -> UA_Server_ptr -> ua_answer * S)
    (set : option UA_NodeId -> Publisher -> Publisher)
    (c : ua_call) : M (S:=S) UA_StatusCode :=
  fun w =>
    match f (server w) (_server (this w)) with
    | ((st, out), s') =>
        (Ret st, {| this := set out (this w); server := s' |}, [Called c st])
    end.

Definition invoke_ (f : S -> UA_Server_ptr -> UA_StatusCode * S)
    (c : ua_call) : M (S:=S) UA_StatusCode :=
  fun w =>
    match f (server w) (_server (this w)) with
    | (st, s') => (Ret st, {| this := this w; server := s' |}, [Called c st])
    end.

Definition no_out (out : option UA_NodeId) (p : Publisher) : Publisher := p.

(** [connect_config] as the constructor fills it (publisher.cpp:65-72). *)
Definition connect_config (name address : string) : UA_PubSubConnectionConfig :=
  {| conn_name := UA_String_fromChars (c_str (name +:+ "Connection"));
     transportProfileUri :=
       UA_String_fromChars
         "http://opcfoundation.org/UA-Profile/Transport/pubsub-udp-uadp";
     conn_enabled := true;
     address_networkInterface := "";
     address_url := UA_String_fromChars (c_str address);
     publisherId_numeric :=
       to_UInt32 (_strhash (name +:+ "Connection") mod 0x8000000) |}.

(** [pds_config] (publisher.cpp:80-82). *)
Definition pds_config (name : string) : UA_PublishedDataSetConfig :=
  {| pds_name := UA_String_fromChars (c_str (name +:+ "PublishedDataSet"));
     publishedDataSetType := UA_PUBSUB_DATASET_PUBLISHEDITEMS |}.

(** The constructor body (publisher.cpp:60-90), after the base class
    [Server(port, users)] has set [_server]. *)
Definition Publisher_ctor (pub_name address : string) : M (S:=S) unit :=
  (fun w => (Ret tt, {| this := set_name pub_name (this w); server := server w |}, [])) ;;;
  invoke_ (UA_ServerConfig_addPubSubTransportLayer lib)
    call_addPubSubTransportLayer ;;;
  self <- get_this ;;
  let cfg := connect_config (_name self) address in
  status <- invoke (fun s p => UA_Server_addPubSubConnection lib s p cfg)
              set_connection_id (call_addPubSubConnection cfg) ;;
  if negb (status =? UA_STATUSCODE_GOOD) then
    UA_LOG_ERROR (Failed_to_add_connection status) ;;;
    ret tt
  else
    let pcfg := pds_config (_name self) in
    pds_status <- invoke (fun s p => UA_Server_addPublishedDataSet lib s p pcfg)
                    set_pds_id (call_addPublishedDataSet pcfg) ;;
    if negb (pds_status =? UA_STATUSCODE_GOOD) then
      UA_LOG_ERROR (Failed_to_add_published_dataset pds_status) ;;;
      ret tt
    else ret tt.

(** [getPDS] (publisher.cpp:92-101). *)
Definition getPDS (pd : PublishedDataSet) : UA_DataSetFieldConfig :=
  {| dataSetFieldType := UA_PUBSUB_DATASETFIELD_VARIABLE;
     fieldNameAlias := UA_String_fromChars (c_str (pd_name pd));
     promotedField := false;
     publishedVariable := pd_node_id pd;
     attributeId := UA_ATTRIBUTEID_VALUE |}.

(** The [for] loop of [publish] (publisher.cpp:112-123): [true] when it ran
    to its end, [false] when it left through the [return false]. *)
Fixpoint add_fields (datas : list PublishedDataSet) : M (S:=S) bool :=
  match datas with
  | [] => ret true
  | pds :: rest =>
      let dsf_config := getPDS pds in
      self <- get_this ;;
      result <- invoke
                  (fun s p => UA_Server_addDataSetField lib s p (_pds_id self) dsf_config)
                  no_out (call_addDataSetField (_pds_id self) dsf_config) ;;
      if negb (result =? UA_STATUSCODE_GOOD) then
        UA_LOG_ERROR (Failed_to_add_dataset_field (c_str (pd_name pds)) result) ;;;
        ret false
      else add_fields rest
  end.

(** [wg_config] and [wg_msg] (publisher.cpp:126-140). *)
Definition wg_config (name : string) (duration : spec_float)
  : UA_WriterGroupConfig :=
  {| wg_name := UA_String_fromChars (c_str (name +:+ "WriterGroup"));
     publishingInterval := duration;
     wg_enabled := false;
     writerGroupId := to_UInt16 (_strhash (name +:+ "WriterGroup") mod 0x8000);
     encodingMimeType := UA_PUBSUB_ENCODING_UADP;
     networkMessageContentMask :=
       Z.lor (Z.lor (Z.lor UA_UADPNETWORKMESSAGECONTENTMASK_PUBLISHERID
                           UA_UADPNETWORKMESSAGECONTENTMASK_GROUPHEADER)
                    UA_UADPNETWORKMESSAGECONTENTMASK_WRITERGROUPID)
             UA_UADPNETWORKMESSAGECONTENTMASK_PAYLOADHEADER |}.

(** [dsw_config] (publisher.cpp:155-158). *)
Definition dsw_config (name : string) : UA_DataSetWriterConfig :=
  {| dsw_name := UA_String_fromChars (c_str (name +:+ "DataSetWriter"));
     dataSetWriterId :=
       to_UInt16 (_strhash (name +:+ "DataSetWriter") mod 0x8000);
     keyFrameCount := to_UInt32 KEY_FRAME_COUNT |}.

(** [publish] (publisher.cpp:103-166). *)
Definition publish (datas : list PublishedDataSet) (duration : spec_float)
  : M (S:=S) bool :=
  self <- get_this ;;
  (if _server self =? nullptr
   then RMVL_Error RMVL_StsNullPtr "Server is nullptr."
   else ret tt) ;;;
  if UA_NodeId_isNull lib (_connection_id self) then ret false
  else
    fields_added <- add_fields datas ;;
    if negb fields_added then ret false
    else
      let wcfg := wg_config (_name self) duration in
      status <- invoke
                  (fun s p => UA_Server_addWriterGroup lib s p (_connection_id self) wcfg)
                  set_wg_id (call_addWriterGroup (_connection_id self) wcfg) ;;
      if negb (status =? UA_STATUSCODE_GOOD) then
        UA_LOG_ERROR (Failed_to_add_writer_group status) ;;;
        ret false
      else
        self <- get_this ;;
        status <- invoke_
                    (fun s p => UA_Server_setWriterGroupOperational lib s p (_wg_id self))
                    (call_setWriterGroupOperational (_wg_id self)) ;;
        if negb (status =? UA_STATUSCODE_GOOD) then
          UA_LOG_ERROR (Failed_to_set_writer_group_operational status) ;;;
          ret false
        else
          let dcfg := dsw_config (_name self) in
          status <- invoke
                      (fun s p => UA_Server_addDataSetWriter lib s p
                                    (_wg_id self) (_pds_id self) dcfg)
                      set_dsw_id
                      (call_addDataSetWriter (_wg_id self) (_pds_id self) dcfg) ;;
          if negb (status =? UA_STATUSCODE_GOOD) then
            UA_LOG_ERROR (Failed_to_add_dataset_writer status) ;;;
            ret false
          else ret true.

End PublisherCode.

(** ** Reading the trace of a run *)

Definition call_of (e : event) : option ua_call :=
  match e with Called c _ => Some c | Logged _ => None end.

(** The library calls of a trace, in order. *)
Definition calls_of (t : list event) : list ua_call := omap call_of t.

(** The call, if the event is one, returned the good status code. *)
Definition call_good (e : event) : Prop :=
  match e with
  | Called _ st => st = UA_STATUSCODE_GOOD
  | Logged _ => True
  end.

Definition all_calls_good (t : list event) : Prop := Forall call_good t.

Section PublisherTrace.

Variable std_hash : string -> Z.
Variable KEY_FRAME_COUNT : Z.

Definition field_call (p : Publisher) (pds : PublishedDataSet) : ua_call :=
  call_addDataSetField (_pds_id p) (getPDS pds).

(** The calls of a [publish] that runs to its end on the object [p], when
    the library stored [wg] as the id of the writer group. *)
Definition expected_calls (p : Publisher) (datas : list PublishedDataSet)
    (duration : spec_float) (wg : UA_NodeId) : list ua_call :=
  map (field_call p) datas
  ++ [ call_addWriterGroup (_connection_id p)
         (wg_config std_hash (_name p) duration);
       call_setWriterGroupOperational wg;
       call_addDataSetWriter wg (_pds_id p)
         (dsw_config std_hash KEY_FRAME_COUNT (_name p)) ].

End PublisherTrace.

(** The outcome, final state and trace of a run. *)
Definition result_of {A W} (r : outcome A * W * list event) : outcome A :=
  fst (fst r).
Definition state_of {A W} (r : outcome A * W * list event) : W :=
  snd (fst r).
Definition trace_of {A W} (r : outcome A * W * list event) : list event :=
  snd r.

(** ** [Client] and [ClientTimer] (client.hpp)

    The header declares the members; the bodies of [monitor], [remove],
    [cancel] and of the [ClientTimer] constructor are in [client.cpp], which
    is not part of the sources at hand. *)

(** Special member functions as the class definitions declare them. *)
Inductive special_member :=
| copy_constructor | move_constructor
| copy_assignment | move_assignment
| destructor.

Inductive member_definition := deleted | defaulted | user_provided.

(** client.hpp:115-121. *)
Definition Client_special (m : special_member) : member_definition :=
  match m with
  | copy_constructor => deleted
  | move_constructor => defaulted
  | copy_assignment => deleted
  | move_assignment => defaulted
  | destructor => user_provided
  end.

(** client.hpp:268-274. *)
Definition ClientTimer_special (m : special_member) : member_definition :=
  match m with
  | copy_constructor => deleted
  | move_constructor => defaulted
  | copy_assignment => deleted
  | move_assignment => defaulted
  | destructor => user_provided
  end.

Definition usable (d : member_definition) : bool :=
  match d with deleted => false | _ => true end.

Definition copyable (special : special_member -> member_definition) : bool :=
  usable (special copy_constructor) || usable (special copy_assignment).

Definition movable (special : special_member -> member_definition) : bool :=
  usable (special move_constructor) && usable (special move_assignment).

Section ClientModel.

(** The callables kept alive by the client, and the client side of the
    library with its own state [C]. *)
Context {DataChangeNotificationCallback EventNotificationCallback : Type}.
Context {C : Type}.

(** What the library answers when asked for a monitored item: a status and
    the subscription id and monitored-item id it issued. *)
Record UA_ClientLibrary := mkClientLibrary {
  create_data_change : C -> UA_NodeId -> Z -> (UA_StatusCode * (Z * Z)) * C;
  create_event : C -> UA_NodeId -> list string -> (UA_StatusCode * (Z * Z)) * C;
  delete_monitored_item : C -> Z -> Z -> UA_StatusCode * C
}.

Variable clib : UA_ClientLibrary.

(** The key of type [UA_UInt32] under which [_monitor_map] files a node. *)
Variable node_key : UA_NodeId -> Z.

(** The data members of [Client] (client.hpp:243-250). *)
Record Client := mkClient {
  _client : Z;
  _monitor_map : gmap Z (Z * Z);
  _dccb_gc : list DataChangeNotificationCallback;
  _encb_gc : list EventNotificationCallback
}.

Definition Client_ok (c : Client) : bool := negb (_client c =? 0).

(** Modelled from the spec: the body of [Client::monitor] (data change) is
    absent.  The client does monitored-item bookkeeping: when the library
    issues the item, the node is recorded in the monitor map with the
    subscription id and the monitored-item id, the callback is kept, and the
    call returns [true]; otherwise nothing is recorded and it returns
    [false]. *)
Definition Client_monitor (node : UA_NodeId)
    (on_change : DataChangeNotificationCallback) (queue_size : Z)
    (self : Client) (s : C) : bool * Client * C :=
  match create_data_change clib s node (to_UInt32 queue_size) with
  | ((status, ids), s') =>
      if negb (status =? UA_STATUSCODE_GOOD) then (false, self, s')
      else
        (true,
         {| _client := _client self;
            _monitor_map := <[node_key node := ids]> (_monitor_map self);
            _dccb_gc := _dccb_gc self ++ [on_change];
            _encb_gc := _encb_gc self |},
         s')
  end.

(** Modelled from the spec: the body of [Client::monitor] (events) is
    absent; the same bookkeeping as for data changes. *)
Definition Client_monitor_event (node : UA_NodeId) (names : list string)
    (on_event : EventNotificationCallback)
    (self : Client) (s : C) : bool * Client * C :=
  match create_event clib s node names with
  | ((status, ids), s') =>
      if negb (status =? UA_STATUSCODE_GOOD) then (false, self, s')
      else
        (true,
         {| _client := _client self;
            _monitor_map := <[node_key node := ids]> (_monitor_map self);
            _dccb_gc := _dccb_gc self;
            _encb_gc := _encb_gc self ++ [on_event] |},
         s')
  end.

(** Modelled from the spec: the body of [Client::remove] is absent.  The
    entry filed under the node's key names the monitored item; its deletion
    is delegated to the library and the status code is translated into the
    boolean: on the good status the entry is erased and the call returns
    [true]; on any other status, and when nothing is filed under the key,
    the call returns [false] and the map is left as it was. *)
Definition Client_remove (node : UA_NodeId) (self : Client) (s : C)
  : bool * Client * C :=
  match _monitor_map self !! node_key node with
  | Some (sub_id, mon_id) =>
      match delete_monitored_item clib s sub_id mon_id with
      | (status, s') =>
          if negb (status =? UA_STATUSCODE_GOOD) then (false, self, s')
          else
            (true,
             {| _client := _client self;
                _monitor_map := delete (node_key node) (_monitor_map self);
                _dccb_gc := _dccb_gc self;
                _encb_gc := _encb_gc self |},
             s')
      end
  | None => (false, self, s)
  end.

End ClientModel.

Arguments UA_ClientLibrary : clear implicits.
Arguments Client : clear implicits.

Section ClientTimerModel.

Context {Callback : Type}.

(** The data members of [ClientTimer] (client.hpp:280-282). *)
Record ClientTimer := mkClientTimer {
  _cv : Z;
  _cb : Callback;
  _id : Z
}.

(** The repeated callbacks registered with the client library: the ids of
    the timers that are active, and the next id to hand out. *)
Record timer_registry := mkRegistry {
  active : gset Z;
  next_id : Z
}.

(** Modelled from the spec: the constructor body is absent.  It registers
    the callback with the library and keeps the id the library hands out. *)
Definition ClientTimer_ctor (sv : Z) (period : spec_float) (callback : Callback)
    (r : timer_registry) : ClientTimer * timer_registry :=
  ({| _cv := sv; _cb := callback; _id := next_id r |},
   {| active := {[ next_id r ]} ∪ active r; next_id := next_id r + 1 |}).

(** Modelled from the spec: the body of [ClientTimer::cancel] is absent.
    Cancelling releases the timer: its id is no longer registered. *)
Definition ClientTimer_cancel (t : ClientTimer) (r : timer_registry)
  : timer_registry :=
  {| active := active r ∖ {[ _id t ]}; next_id := next_id r |}.

(** [~ClientTimer() { cancel(); }] (client.hpp:274). *)
Definition ClientTimer_dtor (t : ClientTimer) (r : timer_registry)
  : timer_registry :=
  ClientTimer_cancel t r.

End ClientTimerModel.

Arguments ClientTimer : clear implicits.

(** ** Concrete instances, to run the model on *)

(** The entries of the [typeid] table that the unit test
    [OPC_UA_Server.value_config] checks, as indices into [UA_TYPES]. *)
Definition UA_TYPES_INT32 : Z := 5.
Definition UA_TYPES_DOUBLE : Z := 10.
Definition UA_TYPES_STRING : Z := 11.

Definition sample_typeid (T : cpp_type) : Z :=
  match T with
  | Fundamental t_int => UA_TYPES_INT32
  | Fundamental t_double => UA_TYPES_DOUBLE
  | CharPtr true => UA_TYPES_STRING
  | _ => 0
  end.

Definition sample_operator_eq (a b : rm_Variable Z) : bool :=
  (_data_type a =? _data_type b) && (_size a =? _size b).

(** A [std::vector<char>] of 2^32 zero bytes. *)
Definition huge_vector : list (cpp_value (Fundamental t_char)) :=
  repeat 0 (Z.to_nat 4294967296).

(** [3.1415] is not needed bit for bit: a finite double, 1.5. *)
Definition sample_double : cpp_value (Fundamental t_double) :=
  S754_finite false 6755399441055744 (-52).

(** A library to run the publisher against: it answers the calls with the
    status codes of a script, one after the other ([UA_STATUSCODE_GOOD] once
    the script is used up), and issues the node ids 1, 2, ... in name space 1
    on success. *)
Record script_state := mkScript {
  answers : list UA_StatusCode;
  issued : Z
}.

Definition scripted_status (s : script_state) : UA_StatusCode * script_state :=
  match answers s with
  | [] => (UA_STATUSCODE_GOOD, s)
  | st :: rest => (st, {| answers := rest; issued := issued s |})
  end.

Definition scripted_answer (s : script_state) : ua_answer * script_state :=
  match scripted_status s with
  | (st, s') =>
      if st =? UA_STATUSCODE_GOOD
      then ((st, Some (mkNodeId 1 (numeric (issued s' + 1)))),
            {| answers := answers s'; issued := issued s' + 1 |})
      else ((st, None), s')
  end.

(** open62541's [UA_NodeId_isNull]: name space 0 and a zero or empty
    identifier. *)
Definition sample_isNull (id : UA_NodeId) : bool :=
  (namespaceIndex id =? 0)
  && match identifier id with
     | numeric n => n =? 0
     | string_id s => bool_decide (s = "")
     | guid g => g =? 0
     | byteString b => bool_decide (b = "")
     end.

Definition scripted_lib : UA_Library script_state :=
  {| UA_NodeId_isNull := sample_isNull;
     UA_ServerConfig_addPubSubTransportLayer := fun s _ => scripted_status s;
     UA_Server_addPubSubConnection := fun s _ _ => scripted_answer s;
     UA_Server_addPublishedDataSet := fun s _ _ => scripted_answer s;
     UA_Server_addDataSetField := fun s _ _ _ => scripted_answer s;
     UA_Server_addWriterGroup := fun s _ _ _ => scripted_answer s;
     UA_Server_setWriterGroupOperational := fun s _ _ => scripted_status s;
     UA_Server_addDataSetWriter := fun s _ _ _ _ => scripted_answer s |}.

(** A string hash to run the model with (the real one is the standard
    library's). *)
Fixpoint sample_hash (s : string) : Z :=
  match s with
  | EmptyString => 5381
  | String c rest => 33 * sample_hash rest + Z.of_nat (Ascii.nat_of_ascii c)
  end.

Definition UA_NODEID_NULL : UA_NodeId := mkNodeId 0 (numeric 0).

Definition BadInternalError : UA_StatusCode := 0x80020000.

(** A publisher whose constructor succeeded (connection 1, data set 2), and
    one whose connection could not be added. *)
Definition ready_publisher : Publisher :=
  {| _server := 4096; _name := "pub";
     _connection_id := mkNodeId 1 (numeric 1);
     _pds_id := mkNodeId 1 (numeric 2);
     _wg_id := UA_NODEID_NULL; _dsw_id := UA_NODEID_NULL |}.

Definition unconnected_publisher : Publisher :=
  {| _server := 4096; _name := "pub";
     _connection_id := UA_NODEID_NULL;
     _pds_id := UA_NODEID_NULL;
     _wg_id := UA_NODEID_NULL; _dsw_id := UA_NODEID_NULL |}.

Definition null_publisher : Publisher :=
  {| _server := nullptr; _name := "pub";
     _connection_id := UA_NODEID_NULL;
     _pds_id := UA_NODEID_NULL;
     _wg_id := UA_NODEID_NULL; _dsw_id := UA_NODEID_NULL |}.

Definition sample_world (p : Publisher) (script : list UA_StatusCode)
  : world (S:=script_state) :=
  {| this := p; server := {| answers := script; issued := 2 |} |}.

Definition sample_datas : list PublishedDataSet :=
  [ {| pd_name := "speed"; pd_node_id := mkNodeId 1 (numeric 100) |};
    {| pd_name := "angle"; pd_node_id := mkNodeId 1 (numeric 101) |} ].

(** 100 ms. *)
Definition sample_duration : spec_float := S754_finite false 100 0.

(** The client library of the sample runs: ids are issued in sequence and
    the state counts them. *)
Definition sample_clib : UA_ClientLibrary Z :=
  {| create_data_change := fun s _ _ => ((UA_STATUSCODE_GOOD, (s + 1, s + 2)), s + 2);
     create_event := fun s _ _ => ((UA_STATUSCODE_GOOD, (s + 1, s + 2)), s + 2);
     delete_monitored_item := fun s _ _ => (UA_STATUSCODE_GOOD, s) |}.

Definition failing_clib : UA_ClientLibrary Z :=
  {| create_data_change := fun s _ _ => ((BadInternalError, (0, 0)), s);
     create_event := fun s _ _ => ((BadInternalError, (0, 0)), s);
     delete_monitored_item := fun s _ _ => (BadInternalError, s) |}.

(** A client library that issues monitored items and refuses to delete
    them. *)
Definition keeping_clib : UA_ClientLibrary Z :=
  {| create_data_change := fun s _ _ => ((UA_STATUSCODE_GOOD, (s + 1, s + 2)), s + 2);
     create_event := fun s _ _ => ((UA_STATUSCODE_GOOD, (s + 1, s + 2)), s + 2);
     delete_monitored_item := fun s _ _ => (BadInternalError, s) |}.

Definition sample_node_key (n : UA_NodeId) : Z :=
  match identifier n with numeric k => to_UInt32 k | _ => 0 end.

Definition sample_client : Client unit unit :=
  {| _client := 8192; _monitor_map := ∅; _dccb_gc := []; _encb_gc := [] |}.

(** ** More of the trace, and the runs of [publish] *)

(** The log lines of a trace, in order, and the status a line reports. *)
Definition log_of (e : event) : option log_line :=
  match e with Called _ _ => None | Logged l => Some l end.

Definition logs_of (t : list event) : list log_line := omap log_of t.

Definition log_status (l : log_line) : UA_StatusCode :=
  match l with
  | Failed_to_add_connection st => st
  | Failed_to_add_published_dataset st => st
  | Failed_to_add_dataset_field _ st => st
  | Failed_to_add_writer_group st => st
  | Failed_to_set_writer_group_operational st => st
  | Failed_to_add_dataset_writer st => st
  end.

(** The calls that belong to the constructor, and those of [publish]. *)
Definition setup_call (c : ua_call) : bool :=
  match c with
  | call_addPubSubTransportLayer
  | call_addPubSubConnection _
  | call_addPublishedDataSet _ => true
  | _ => false
  end.

(** A string holds a NUL character. *)
Fixpoint has_nul (s : string) : bool :=
  match s with
  | EmptyString => false
  | String c rest => Ascii.eqb c Ascii.zero || has_nul rest
  end.

(** The library calls of a trace with the status each returned. *)
Definition called_of (e : event) : option (ua_call * UA_StatusCode) :=
  match e with Called c st => Some (c, st) | Logged _ => None end.

Definition called (t : list event) : list (ua_call * UA_StatusCode) :=
  omap called_of t.

Section LibraryAnswers.

Context {S : Type}.
Variable lib : UA_Library S.

(** What the library answers to the call [c] made on the server [p] in the
    state [s], and the state it leaves. *)
Definition answer (s : S) (p : UA_Server_ptr) (c : ua_call) : ua_answer * S :=
  match c with
  | call_addPubSubTransportLayer =>
      match UA_ServerConfig_addPubSubTransportLayer lib s p with
      | (st, s') => ((st, None), s')
      end
  | call_addPubSubConnection cfg => UA_Server_addPubSubConnection lib s p cfg
  | call_addPublishedDataSet cfg => UA_Server_addPublishedDataSet lib s p cfg
  | call_addDataSetField pds cfg => UA_Server_addDataSetField lib s p pds cfg
  | call_addWriterGroup conn cfg => UA_Server_addWriterGroup lib s p conn cfg
  | call_setWriterGroupOperational wg =>
      match UA_Server_setWriterGroupOperational lib s p wg with
      | (st, s') => ((st, None), s')
      end
  | call_addDataSetWriter wg pds cfg =>
      UA_Server_addDataSetWriter lib s p wg pds cfg
  end.

(** The trace [t] is what the library did: made one after the other from
    the state [s], its calls are answered by the library with the statuses
    the trace records, and the library ends in the state [s']. *)
Fixpoint answered_by (p : UA_Server_ptr) (s : S) (t : list event) (s' : S)
  : Prop :=
  match t with
  | [] => s' = s
  | Logged _ :: t' => answered_by p s t' s'
  | Called c st :: t' =>
      (answer s p c).1.1 = st /\ answered_by p (answer s p c).2 t' s'
  end.

(** A computation keeps the server pointer and its trace is what the
    library did. *)
Definition faithful {A : Type} (m : M A) : Prop :=
  forall w : world,
    _server (this (state_of (m w))) = _server (this w)
    /\ answered_by (_server (this w)) (server w) (trace_of (m w))
         (server (state_of (m w))).

End LibraryAnswers.

Section PublishRuns.

Variable std_hash : string -> Z.
Variable KEY_FRAME_COUNT : Z.

(** The events of field calls that were all accepted. *)
Definition accepted_fields (p : Publisher) (datas : list PublishedDataSet)
  : list event :=
  map (fun pds => Called (field_call p pds) UA_STATUSCODE_GOOD) datas.

(** The five ways through [publish] once its preconditions hold
    (publisher.cpp:112-165), each with the boolean returned, the object
    left behind and the events emitted.  [out] and [out3] are what the
    library stored as writer-group id and data-set-writer id. *)
Inductive publish_run (p : Publisher) (datas : list PublishedDataSet)
    (d : spec_float) : bool -> Publisher -> list event -> Prop :=
| run_field_refused (done : list PublishedDataSet) (pds : PublishedDataSet)
    (rest : list PublishedDataSet) (st : UA_StatusCode) :
    datas = done ++ pds :: rest ->
    st <> UA_STATUSCODE_GOOD ->
    publish_run p datas d false p
      (accepted_fields p done
       ++ [ Called (field_call p pds) st;
            Logged (Failed_to_add_dataset_field (c_str (pd_name pds)) st) ])
| run_group_refused (st : UA_StatusCode) (out : option UA_NodeId) :
    st <> UA_STATUSCODE_GOOD ->
    publish_run p datas d false (set_wg_id out p)
      (accepted_fields p datas
       ++ [ Called (call_addWriterGroup (_connection_id p)
                      (wg_config std_hash (_name p) d)) st;
            Logged (Failed_to_add_writer_group st) ])
| run_not_operational (st : UA_StatusCode) (out : option UA_NodeId) :
    st <> UA_STATUSCODE_GOOD ->
    publish_run p datas d false (set_wg_id out p)
      (accepted_fields p datas
       ++ [ Called (call_addWriterGroup (_connection_id p)
                      (wg_config std_hash (_name p) d)) UA_STATUSCODE_GOOD;
            Called (call_setWriterGroupOperational (store out (_wg_id p))) st;
            Logged (Failed_to_set_writer_group_operational st) ])
| run_writer_refused (st : UA_StatusCode) (out out3 : option UA_NodeId) :
    st <> UA_STATUSCODE_GOOD ->
    publish_run p datas d false (set_dsw_id out3 (set_wg_id out p))
      (accepted_fields p datas
       ++ [ Called (call_addWriterGroup (_connection_id p)
                      (wg_config std_hash (_name p) d)) UA_STATUSCODE_GOOD;
            Called (call_setWriterGroupOperational (store out (_wg_id p)))
              UA_STATUSCODE_GOOD;
            Called (call_addDataSetWriter (store out (_wg_id p)) (_pds_id p)
                      (dsw_config std_hash KEY_FRAME_COUNT (_name p))) st;
            Logged (Failed_to_add_dataset_writer st) ])
| run_published (out out3 : option UA_NodeId) :
    publish_run p datas d true (set_dsw_id out3 (set_wg_id out p))
      (accepted_fields p datas
       ++ [ Called (call_addWriterGroup (_connection_id p)
                      (wg_config std_hash (_name p) d)) UA_STATUSCODE_GOOD;
            Called (call_setWriterGroupOperational (store out (_wg_id p)))
              UA_STATUSCODE_GOOD;
            Called (call_addDataSetWriter (store out (_wg_id p)) (_pds_id p)
                      (dsw_config std_hash KEY_FRAME_COUNT (_name p)))
              UA_STATUSCODE_GOOD ]).

End PublishRuns.

(** ** [ClientView] and the path-search tuple (client.hpp:30-84, 123, 159) *)

(** [FindNodeInClient], as [find] builds it: the client pointer, the browse
    name and the name-space index. *)
Record FindNodeInClient := mkFindNodeInClient {
  fnic_client : Z;
  fnic_browse_name : string;
  fnic_ns : Z
}.

Record ClientView := mkClientView { cv_client : Z }.

(** [ClientView() = default]: the pointer is [nullptr]. *)
Definition ClientView_default : ClientView := {| cv_client := 0 |}.
(** [ClientView(UA_Client *client)]. *)
Definition ClientView_of (client : Z) : ClientView := {| cv_client := client |}.
(** [operator=(UA_Client *const client)]: the view after the assignment. *)
Definition ClientView_assign (self : ClientView) (client : Z) : ClientView :=
  {| cv_client := client |}.
Definition ClientView_get (self : ClientView) : Z := cv_client self.
(** [find(browse_name, ns = 1U)]; [ns] is a [uint16_t]. *)
Definition ClientView_find (self : ClientView) (browse_name : string) (ns : Z)
  : FindNodeInClient :=
  {| fnic_client := cv_client self; fnic_browse_name := browse_name;
     fnic_ns := to_UInt16 ns |}.

Section ClientViewModel.

Context {DataChangeNotificationCallback EventNotificationCallback : Type}.

(** [Client::operator ClientView() const] (client.hpp:123). *)
Definition Client_operator_ClientView
    (c : Client DataChangeNotificationCallback EventNotificationCallback)
  : ClientView :=
  ClientView_of (_client c).

(** [Client::find] (client.hpp:159). *)
Definition Client_find
    (c : Client DataChangeNotificationCallback EventNotificationCallback)
    (browse_name : string) (ns : Z) : FindNodeInClient :=
  {| fnic_client := _client c; fnic_browse_name := browse_name;
     fnic_ns := to_UInt16 ns |}.

End ClientViewModel.

(** * Properties of the variable container *)

Lemma to_UInt32_small (z : Z) : 0 <= z < 2 ^ 32 -> to_UInt32 z = z.
Proof. intros H. unfold to_UInt32. apply Z.mod_small. exact H. Qed.

Lemma vector_size_nonneg {A} (arr : list A) : 0 <= vector_size arr < 2 ^ 64.
Proof. unfold vector_size, to_size_t. apply Z.mod_pos_bound. lia. Qed.

Lemma any_cast_holds (T : cpp_type) (v : cpp_value T) :
  any_cast T (any_holds T v) = Ret v.
Proof.
  unfold any_cast.
  destruct (decide (T = T)) as [e | ne]; [ | contradiction ].
  rewrite (UIP_dec cpp_type_eq_dec e eq_refl). reflexivity.
Qed.

Lemma any_cast_other (T T' : cpp_type) (v : cpp_value T') :
  T' <> T -> any_cast T (any_holds T' v) = Raise bad_any_cast.
Proof.
  intros ne. unfold any_cast.
  destruct (decide (T' = T)) as [e | _]; [ contradiction | reflexivity ].
Qed.

Lemma huge_vector_size : vector_size huge_vector = 4294967296.
Proof.
  unfold vector_size, huge_vector.
  rewrite repeat_length.
  rewrite Z2Nat.id by discriminate.
  reflexivity.
Qed.

Section VariableTheory.

Context {DataType : Type}.
Variable DataType_default : DataType.
Variable DataType_of_typeid : cpp_type -> DataType.
Variable operator_eq : rm_Variable DataType -> rm_Variable DataType -> bool.

Local Abbreviation Variable_scalar' := (Variable_scalar DataType_default DataType_of_typeid).
Local Abbreviation Variable_vector' := (Variable_vector DataType_default DataType_of_typeid).
Local Abbreviation VariableType_scalar' := (VariableType_scalar DataType_of_typeid).
Local Abbreviation VariableType_vector' := (VariableType_vector DataType_of_typeid).

(** C3 (as amended).  A scalar of a type the constructor accepts is stored
    with the type tag [DataType(typeid(DecayT))] and size 1, and [cast] and
    the conversion operator give the scalar back.  A vector of an accepted
    element type, whatever its length, is given back by [cast] and by the
    conversion operator; its [size()] is [arr.size()] reduced modulo 2^32,
    hence [arr.size()] itself whenever that is below 2^32. *)
Theorem Variable_roundtrip
    (DecayT Tp : cpp_type) (v : cpp_value DecayT) (arr : list (cpp_value Tp)) :
  scalar_enabled DecayT = true ->
  vector_enabled Tp = true ->
  (Variable_getDataType (Variable_scalar' DecayT v) = DataType_of_typeid DecayT
   /\ Variable_size (Variable_scalar' DecayT v) = 1
   /\ Variable_cast DecayT (Variable_scalar' DecayT v) = Ret v
   /\ Variable_operator_Tp DecayT (Variable_scalar' DecayT v) = Ret v)
  /\
  (Variable_cast (Vector Tp) (Variable_vector' Tp arr) = Ret arr
   /\ Variable_operator_vector Tp (Variable_vector' Tp arr) = Ret arr
   /\ Variable_getDataType (Variable_vector' Tp arr) = DataType_of_typeid Tp
   /\ Variable_size (Variable_vector' Tp arr) = vector_size arr mod 2 ^ 32
   /\ (vector_size arr < 2 ^ 32 ->
       Variable_size (Variable_vector' Tp arr) = vector_size arr)).
Proof.
  intros _ _.
  split.
  - repeat split; try reflexivity; apply any_cast_holds.
  - split; [ apply (any_cast_holds (Vector Tp)) | ].
    split; [ apply (any_cast_holds (Vector Tp)) | ].
    split; [ reflexivity | ].
    split; [ reflexivity | ].
    intros Hsmall.
    unfold Variable_size, Variable_vector; cbn [_size].
    apply to_UInt32_small. pose proof (vector_size_nonneg arr). lia.
Qed.

(** The narrowing at the root of the amendment: whatever the vector,
    [size()] is [arr.size()] modulo 2^32, for both classes. *)
Lemma vector_size_narrowed (Tp : cpp_type) (arr : list (cpp_value Tp)) :
  Variable_size (Variable_vector' Tp arr) = vector_size arr mod 2 ^ 32
  /\ VariableType_size (VariableType_vector' Tp arr) = vector_size arr mod 2 ^ 32.
Proof. split; reflexivity. Qed.

(** C6.  [Variable::from(vtype)] copies the defaults of the type: data,
    type tag and size are those of [vtype], [type()] is [vtype], and the
    variable is empty exactly when [vtype] is. *)
Theorem Variable_from_passthrough (vtype : VariableType DataType) :
  Variable_data (Variable_from vtype) = VariableType_data vtype
  /\ Variable_getDataType (Variable_from vtype) = VariableType_getDataType vtype
  /\ Variable_size (Variable_from vtype) = VariableType_size vtype
  /\ Variable_type (Variable_from vtype) = vtype
  /\ (Variable_empty (Variable_from vtype) = true
      <-> VariableType_empty vtype = true).
Proof. repeat split; intros H; exact H. Qed.

(** C9 (as amended).  The three constructors that take a value set
    [access_level] to 3, which is [VARIABLE_READ | VARIABLE_WRITE]; the
    default constructor leaves it 0; no declared member function of
    [Variable] changes it, all of them being [const].  Besides a direct
    assignment to the field, the implicit assignment operator changes it:
    after [var = val] the level is that of [val], and after [var = x] for a
    value [x] it is 3. *)
Theorem access_level_invariant
    (DecayT Tp : cpp_type) (v : cpp_value DecayT) (arr : list (cpp_value Tp))
    (vtype : VariableType DataType)
    (m : Variable_method) (self val : rm_Variable DataType) (level : Z) :
  access_level (Variable_scalar' DecayT v) = 3
  /\ access_level (Variable_vector' Tp arr) = 3
  /\ access_level (Variable_from vtype) = 3
  /\ 3 = Z.lor VARIABLE_READ VARIABLE_WRITE
  /\ Z.land 3 VARIABLE_READ = VARIABLE_READ
  /\ Z.land 3 VARIABLE_WRITE = VARIABLE_WRITE
  /\ access_level (Variable_default DataType_default) = 0
  /\ (const_member m = true ->
      access_level (snd (Variable_call operator_eq m self)) = access_level self)
  /\ access_level (snd (Variable_call operator_eq (call_operator_assign val) self))
     = access_level val
  /\ access_level
       (snd (Variable_call operator_eq
               (call_operator_assign (Variable_scalar' DecayT v)) self))
     = 3
  /\ access_level (Variable_set_access_level self level) = level mod 2 ^ 8.
Proof.
  repeat split; try reflexivity.
  destruct m; try reflexivity. discriminate.
Qed.

(** C10 (as amended).  For both classes [empty()] is [size() == 0]; a
    default-constructed object has size 0 and is empty; one built from a
    scalar has size 1 and is not empty; one built from a vector of length 0
    is empty although it holds a value; one built from a vector whose length
    [n] satisfies [0 < n < 2^32] has size [n] and is not empty. *)
Theorem empty_iff_size_zero
    (vt : VariableType DataType) (var : rm_Variable DataType)
    (DecayT Tp : cpp_type) (v : cpp_value DecayT) (arr : list (cpp_value Tp)) :
  0 < vector_size arr < 2 ^ 32 ->
  ((VariableType_empty vt = true <-> VariableType_size vt = 0)
   /\ (Variable_empty var = true <-> Variable_size var = 0))
  /\
  (VariableType_size (VariableType_default DataType_default) = 0
   /\ VariableType_empty (VariableType_default DataType_default) = true
   /\ Variable_size (Variable_default DataType_default) = 0
   /\ Variable_empty (Variable_default DataType_default) = true)
  /\
  (VariableType_size (VariableType_scalar' DecayT v) = 1
   /\ VariableType_empty (VariableType_scalar' DecayT v) = false
   /\ Variable_size (Variable_scalar' DecayT v) = 1
   /\ Variable_empty (Variable_scalar' DecayT v) = false)
  /\
  (VariableType_empty (VariableType_vector' Tp []) = true
   /\ has_value (VariableType_data (VariableType_vector' Tp [])) = true
   /\ Variable_empty (Variable_vector' Tp []) = true
   /\ has_value (Variable_data (Variable_vector' Tp [])) = true)
  /\
  (VariableType_size (VariableType_vector' Tp arr) = vector_size arr
   /\ VariableType_empty (VariableType_vector' Tp arr) = false
   /\ Variable_size (Variable_vector' Tp arr) = vector_size arr
   /\ Variable_empty (Variable_vector' Tp arr) = false).
Proof.
  intros Hn.
  assert (Hsz : to_UInt32 (vector_size arr) = vector_size arr)
    by (apply to_UInt32_small; lia).
  repeat split; try reflexivity.
  - unfold VariableType_empty, VariableType_size. apply Z.eqb_eq.
  - unfold VariableType_empty, VariableType_size. apply Z.eqb_eq.
  - unfold Variable_empty, Variable_size. apply Z.eqb_eq.
  - unfold Variable_empty, Variable_size. apply Z.eqb_eq.
  - exact Hsz.
  - unfold VariableType_empty, VariableType_vector; cbn [vt_size].
    rewrite Hsz. apply Z.eqb_neq. lia.
  - exact Hsz.
  - unfold Variable_empty, Variable_vector; cbn [_size].
    rewrite Hsz. apply Z.eqb_neq. lia.
Qed.

End VariableTheory.

(** The round trip of C3 on the values of the unit test: a double and the
    vector [{1, 2, 3}] of [int]. *)
Lemma Variable_roundtrip_witness :
  scalar_enabled (Fundamental t_double) = true
  /\ vector_enabled (Fundamental t_int) = true
  /\ Variable_getDataType
       (Variable_scalar 0 sample_typeid (Fundamental t_double) sample_double)
     = UA_TYPES_DOUBLE
  /\ Variable_cast (Fundamental t_double)
       (Variable_scalar 0 sample_typeid (Fundamental t_double) sample_double)
     = Ret sample_double
  /\ Variable_size
       (Variable_vector 0 sample_typeid (Fundamental t_int) [1; 2; 3]) = 3
  /\ Variable_operator_vector (Fundamental t_int)
       (Variable_vector 0 sample_typeid (Fundamental t_int) [1; 2; 3])
     = Ret [1; 2; 3].
Proof.
  assert (E : scalar_enabled (Fundamental t_double) = true) by reflexivity.
  assert (V : vector_enabled (Fundamental t_int) = true) by reflexivity.
  assert (L : vector_size (A:=Z) [1; 2; 3] < 2 ^ 32) by (vm_compute; reflexivity).
  destruct (Variable_roundtrip 0 sample_typeid
              (Fundamental t_double) (Fundamental t_int)
              sample_double [1; 2; 3] E V)
    as [(Htag & _ & Hcast & _) (_ & Hconv & _ & _ & Hsize)].
  specialize (Hsize L).
  repeat split; assumption.
Defined.

(** The round trip of C3 on the vector of 2^32 zero bytes: [cast] gives it
    back and [size()] is 0. *)
Lemma huge_vector_roundtrip :
  Variable_cast (Vector (Fundamental t_char))
    (Variable_vector 0 sample_typeid (Fundamental t_char) huge_vector)
  = Ret huge_vector
  /\ Variable_size
       (Variable_vector 0 sample_typeid (Fundamental t_char) huge_vector) = 0.
Proof.
  split.
  - apply (any_cast_holds (Vector (Fundamental t_char))).
  - unfold Variable_size, Variable_vector; cbn [_size].
    rewrite huge_vector_size. reflexivity.
Qed.

(** C3 as stated fails on a [std::vector<char>] of 2^32 elements: its
    [size()] is 0, not [arr.size()]. *)
Lemma Variable_vector_size_counterexample :
  ~ (Variable_size
       (Variable_vector 0 sample_typeid (Fundamental t_char) huge_vector)
     = vector_size huge_vector).
Proof.
  unfold Variable_size, Variable_vector; cbn [_size].
  rewrite huge_vector_size.
  discriminate.
Qed.

(** C10 on a vector of three elements. *)
Lemma empty_iff_size_zero_witness :
  0 < vector_size (A:=Z) [1; 2; 3] < 2 ^ 32
  /\ Variable_size
       (Variable_vector 0 sample_typeid (Fundamental t_int) [1; 2; 3]) = 3
  /\ Variable_empty
       (Variable_vector 0 sample_typeid (Fundamental t_int) [1; 2; 3]) = false
  /\ VariableType_empty
       (VariableType_vector sample_typeid (Fundamental t_int) []) = true.
Proof.
  assert (L : 0 < vector_size (A:=Z) [1; 2; 3] < 2 ^ 32)
    by (vm_compute; split; reflexivity).
  destruct (empty_iff_size_zero 0 sample_typeid
              (VariableType_default 0) (Variable_default 0)
              (Fundamental t_double) (Fundamental t_int)
              sample_double [1; 2; 3] L)
    as (_ & _ & _ & _ & (_ & _ & Hsize & Hempty)).
  assert (E : VariableType_empty
                (VariableType_vector sample_typeid (Fundamental t_int) []) = true)
    by reflexivity.
  repeat split; try assumption; apply L.
Defined.

(** C10 as stated fails on a vector of length 2^32 > 0: both classes report
    size 0 and [empty()] true. *)
Lemma empty_vector_counterexample :
  ~ (0 < vector_size huge_vector ->
     Variable_size
       (Variable_vector 0 sample_typeid (Fundamental t_char) huge_vector)
     = vector_size huge_vector
     /\ Variable_empty
          (Variable_vector 0 sample_typeid (Fundamental t_char) huge_vector)
        = false).
Proof.
  intros H.
  destruct H as [Hsize _].
  - rewrite huge_vector_size. reflexivity.
  - revert Hsize.
    unfold Variable_size, Variable_vector; cbn [_size].
    rewrite huge_vector_size.
    discriminate.
Qed.

(** What the code does there: size 0 and empty, for both classes. *)
Lemma huge_vector_reported_empty :
  Variable_size
    (Variable_vector 0 sample_typeid (Fundamental t_char) huge_vector) = 0
  /\ Variable_empty
       (Variable_vector 0 sample_typeid (Fundamental t_char) huge_vector) = true
  /\ VariableType_size
       (VariableType_vector sample_typeid (Fundamental t_char) huge_vector) = 0
  /\ VariableType_empty
       (VariableType_vector sample_typeid (Fundamental t_char) huge_vector) = true.
Proof.
  unfold Variable_size, Variable_empty, Variable_vector,
    VariableType_size, VariableType_empty, VariableType_vector;
    cbn [_size vt_size].
  rewrite huge_vector_size.
  repeat split.
Qed.

(** C9 as stated fails on the assignment of a value: a variable made
    read-only through its field is readable and writable again after
    [var = 2], which assigns no field directly. *)
Lemma access_level_assignment_counterexample :
  ~ (access_level
       (snd (Variable_call sample_operator_eq
               (call_operator_assign
                  (Variable_scalar 0 sample_typeid (Fundamental t_int) 2))
               (Variable_set_access_level
                  (Variable_scalar 0 sample_typeid (Fundamental t_double)
                     sample_double)
                  VARIABLE_READ)))
     = access_level
         (Variable_set_access_level
            (Variable_scalar 0 sample_typeid (Fundamental t_double)
               sample_double)
            VARIABLE_READ)).
Proof. cbn. discriminate. Qed.

(** The values of the unit test [OPC_UA_Server.value_config]: a string, a
    double and a vector of three [int]. *)
Example value_config :
  VariableType_getDataType
    (VariableType_scalar sample_typeid const_char_ptr 4210688) = UA_TYPES_STRING
  /\ VariableType_size
       (VariableType_scalar sample_typeid const_char_ptr 4210688) = 1
  /\ Variable_getDataType
       (Variable_scalar 0 sample_typeid (Fundamental t_double) sample_double)
     = UA_TYPES_DOUBLE
  /\ Variable_size
       (Variable_vector 0 sample_typeid (Fundamental t_int) [1; 2; 3]) = 3
  /\ Variable_getDataType
       (Variable_vector 0 sample_typeid (Fundamental t_int) [1; 2; 3])
     = UA_TYPES_INT32.
Proof. repeat split. Qed.

(** Asking for another type than the stored one throws. *)
Example cast_to_other_type :
  Variable_cast (Fundamental t_int)
    (Variable_scalar 0 sample_typeid (Fundamental t_double) sample_double)
  = Raise bad_any_cast
  /\ VariableType_cast (Fundamental t_int) (VariableType_default 0)
     = Raise bad_any_cast.
Proof.
  split; [ | reflexivity ].
  apply any_cast_other. discriminate.
Qed.

(** A comparison leaves the access level of its operands alone. *)
Example compare_keeps_access_level :
  access_level
    (snd (Variable_call sample_operator_eq
            (call_operator_eq (Variable_default 0))
            (Variable_scalar 0 sample_typeid (Fundamental t_double) sample_double)))
  = 3.
Proof. reflexivity. Qed.

(** * Properties of the publisher *)

Lemma calls_of_app (t1 t2 : list event) :
  calls_of (t1 ++ t2) = calls_of t1 ++ calls_of t2.
Proof. unfold calls_of. apply omap_app. Qed.

Lemma all_calls_good_app (t1 t2 : list event) :
  all_calls_good (t1 ++ t2) <-> all_calls_good t1 /\ all_calls_good t2.
Proof. unfold all_calls_good. apply Forall_app. Qed.

Lemma In_calls_of (c : ua_call) (st : UA_StatusCode) (t : list event) :
  In (Called c st) t -> In c (calls_of t).
Proof.
  induction t as [ | e t IH ]; intros H; [ destruct H | ].
  destruct H as [ -> | H ].
  - cbn. left. reflexivity.
  - destruct e; cbn; [ right | ]; apply IH, H.
Qed.

Lemma prefix_In {A} (l1 l2 : list A) (x : A) :
  l1 `prefix_of` l2 -> In x l1 -> In x l2.
Proof. intros [k ->] H. apply in_or_app. left. exact H. Qed.

Lemma status_good_dec (st : UA_StatusCode) :
  negb (st =? UA_STATUSCODE_GOOD) = false <-> st = UA_STATUSCODE_GOOD.
Proof.
  rewrite negb_false_iff. apply Z.eqb_eq.
Qed.

Section PublisherTheory.

Context {S : Type}.
Variable lib : UA_Library S.
Variable std_hash : string -> Z.
Variable KEY_FRAME_COUNT : Z.

Local Abbreviation publish' := (publish lib std_hash KEY_FRAME_COUNT).
Local Abbreviation expected' := (expected_calls std_hash KEY_FRAME_COUNT).

(** The loop never throws, leaves the object as it was, and its calls are
    the field calls of a prefix of [datas]: all of them, each one good,
    exactly when it runs to its end. *)
Lemma add_fields_spec (datas : list PublishedDataSet) (w : world) :
  exists (b : bool) (s' : S) (t : list event),
    add_fields lib datas w = (Ret b, {| this := this w; server := s' |}, t)
    /\ (b = true <-> all_calls_good t)
    /\ calls_of t `prefix_of` map (field_call (this w)) datas
    /\ (b = true -> calls_of t = map (field_call (this w)) datas).
Proof.
  revert w. induction datas as [ | pds rest IH ]; intros w.
  - exists true, (server w), []. destruct w. cbn. repeat split; try constructor.
    reflexivity.
  - cbn [add_fields]. unfold bind, get_this, invoke, UA_LOG_ERROR, ret, no_out.
    destruct (UA_Server_addDataSetField lib (server w) (_server (this w))
                (_pds_id (this w)) (getPDS pds)) as [[st out] s1] eqn:Ecall.
    destruct (negb (st =? UA_STATUSCODE_GOOD)) eqn:Est.
    + exists false, s1. eexists. split; [ reflexivity | ].
      cbn. repeat split; try discriminate.
      * intros H. inversion H as [ | ? ? Hst _ ]; subst. cbn in Hst. subst st.
        discriminate.
      * exists (map (field_call (this w)) rest). reflexivity.
    + apply status_good_dec in Est. subst st.
      destruct (IH {| this := this w; server := s1 |})
        as (b & s2 & t & E & Hgood & Hpre & Hall).
      cbn [this server] in *. rewrite E.
      exists b, s2. eexists. split; [ reflexivity | ].
      cbn. repeat split.
      * intros Hb. constructor; [ reflexivity | apply Hgood, Hb ].
      * intros H. inversion H; subst. apply Hgood. assumption.
      * apply prefix_cons, Hpre.
      * intros Hb. unfold field_call at 1. f_equal. apply Hall, Hb.
Qed.

(** [publish] when a precondition fails: nothing is called. *)
Lemma publish_null_server (datas : list PublishedDataSet) (d : spec_float)
    (w : world) :
  _server (this w) = nullptr ->
  publish' datas d w
  = (Raise (rm_Exception RMVL_StsNullPtr "Server is nullptr."), w, []).
Proof.
  intros H. unfold publish, bind, get_this, RMVL_Error.
  rewrite H. reflexivity.
Qed.

Lemma publish_null_connection (datas : list PublishedDataSet) (d : spec_float)
    (w : world) :
  _server (this w) <> nullptr ->
  UA_NodeId_isNull lib (_connection_id (this w)) = true ->
  publish' datas d w = (Ret false, w, []).
Proof.
  intros Hs Hc. unfold publish, bind, get_this, ret.
  apply Z.eqb_neq in Hs. rewrite Hs, Hc. reflexivity.
Qed.

(** [publish] when its preconditions hold. *)
Lemma publish_spec (datas : list PublishedDataSet) (d : spec_float)
    (w : world) :
  _server (this w) <> nullptr ->
  UA_NodeId_isNull lib (_connection_id (this w)) = false ->
  exists (b : bool) (w' : world) (t : list event) (wg : UA_NodeId),
    publish' datas d w = (Ret b, w', t)
    /\ (b = true <-> all_calls_good t)
    /\ calls_of t `prefix_of` expected' (this w) datas d wg
    /\ (b = true -> calls_of t = expected' (this w) datas d wg).
Proof.
  intros Hs Hc. apply Z.eqb_neq in Hs.
  unfold publish, bind, get_this, ret. rewrite Hs, Hc.
  destruct (add_fields_spec datas w) as (b & s1 & t1 & E & Hgood & Hpre & Hall).
  rewrite E. unfold expected_calls.
  destruct b; cbn [negb].
  2: { exists false. eexists. eexists. exists UA_NODEID_NULL.
       split; [ reflexivity | ].
       rewrite ?app_nil_r. cbn [app].
       repeat split; try discriminate.
       - intros H. apply Hgood in H. discriminate.
       - apply prefix_app_r, Hpre. }
  specialize (Hall eq_refl). destruct Hgood as [Hgood _].
  specialize (Hgood eq_refl).
  unfold invoke, invoke_, UA_LOG_ERROR. cbn [this server].
  destruct (UA_Server_addWriterGroup lib s1 (_server (this w))
              (_connection_id (this w)) (wg_config std_hash (_name (this w)) d))
    as [[st1 out1] s2].
  destruct (negb (st1 =? UA_STATUSCODE_GOOD)) eqn:E1.
  { exists false. eexists. eexists. exists UA_NODEID_NULL.
    split; [ reflexivity | ].
    cbn [app]. rewrite ?app_nil_r.
    repeat split; try discriminate.
    - intros H. apply all_calls_good_app in H. destruct H as [_ H].
      inversion H as [ | ? ? Hst _ ]; subst. cbn in Hst. subst st1. discriminate.
    - rewrite calls_of_app, Hall. apply prefix_app. cbn.
      apply prefix_cons, prefix_nil. }
  apply status_good_dec in E1. subst st1.
  cbn [this server set_wg_id _wg_id _pds_id _name _server _connection_id].
  set (wg := store out1 (_wg_id (this w))).
  destruct (UA_Server_setWriterGroupOperational lib s2 (_server (this w)) wg)
    as [st2 s3].
  destruct (negb (st2 =? UA_STATUSCODE_GOOD)) eqn:E2.
  { exists false. eexists. eexists. exists wg.
    split; [ reflexivity | ].
    cbn [app]. rewrite ?app_nil_r.
    repeat split; try discriminate.
    - intros H. apply all_calls_good_app in H. destruct H as [_ H].
      inversion H as [ | ? ? _ H' ]; subst.
      inversion H' as [ | ? ? Hst _ ]; subst. cbn in Hst. subst st2. discriminate.
    - rewrite calls_of_app, Hall. apply prefix_app. cbn.
      do 2 apply prefix_cons. apply prefix_nil. }
  apply status_good_dec in E2. subst st2.
  cbn [this server set_wg_id _wg_id _pds_id _name _server _connection_id].
  fold wg.
  destruct (UA_Server_addDataSetWriter lib s3 (_server (this w)) wg
              (_pds_id (this w))
              (dsw_config std_hash KEY_FRAME_COUNT (_name (this w))))
    as [[st3 out3] s4].
  destruct (negb (st3 =? UA_STATUSCODE_GOOD)) eqn:E3.
  { exists false. eexists. eexists. exists wg.
    split; [ reflexivity | ].
    cbn [app]. rewrite ?app_nil_r.
    repeat split; try discriminate.
    - intros H. apply all_calls_good_app in H. destruct H as [_ H].
      inversion H as [ | ? ? _ H' ]; subst.
      inversion H' as [ | ? ? _ H'' ]; subst.
      inversion H'' as [ | ? ? Hst _ ]; subst. cbn in Hst. subst st3.
      discriminate.
    - rewrite calls_of_app, Hall. apply prefix_app. cbn.
      do 3 apply prefix_cons. apply prefix_nil. }
  apply status_good_dec in E3. subst st3.
  exists true. eexists. eexists. exists wg.
  split; [ reflexivity | ].
  cbn [app]. rewrite ?app_nil_r.
  split; [ split; [ intros _ | reflexivity ] | split; [ | intros _ ] ].
  - apply all_calls_good_app. split; [ exact Hgood | ].
    repeat constructor.
  - rewrite calls_of_app, Hall. reflexivity.
  - rewrite calls_of_app, Hall. reflexivity.
Qed.

(** Whatever the state, the calls of [publish] are a prefix of the expected
    ones. *)
Lemma publish_calls_prefix (datas : list PublishedDataSet) (d : spec_float)
    (w : world) :
  exists wg : UA_NodeId,
    calls_of (trace_of (publish' datas d w))
      `prefix_of` expected' (this w) datas d wg.
Proof.
  destruct (Z.eq_dec (_server (this w)) nullptr) as [Hs | Hs].
  - rewrite (publish_null_server datas d w Hs).
    exists UA_NODEID_NULL. apply prefix_nil.
  - destruct (UA_NodeId_isNull lib (_connection_id (this w))) eqn:Hc.
    + rewrite (publish_null_connection datas d w Hs Hc).
      exists UA_NODEID_NULL. apply prefix_nil.
    + destruct (publish_spec datas d w Hs Hc) as (b & w' & t & wg & E & _ & H & _).
      rewrite E. exists wg. exact H.
Qed.

Lemma In_expected_calls (c : ua_call) (p : Publisher)
    (datas : list PublishedDataSet) (d : spec_float) (wg : UA_NodeId) :
  In c (expected' p datas d wg) ->
  (exists pds, c = field_call p pds)
  \/ c = call_addWriterGroup (_connection_id p) (wg_config std_hash (_name p) d)
  \/ c = call_setWriterGroupOperational wg
  \/ c = call_addDataSetWriter wg (_pds_id p)
           (dsw_config std_hash KEY_FRAME_COUNT (_name p)).
Proof.
  unfold expected_calls. intros H. apply in_app_or in H.
  destruct H as [H | H].
  - apply in_map_iff in H. destruct H as (pds & <- & _). left. eauto.
  - cbn in H. intuition.
Qed.

(** The constructor: its calls, in order. *)
Lemma Publisher_ctor_calls (pub_name address : string) (w : world) :
  exists (st0 st1 : UA_StatusCode) (rest : list event),
    trace_of (Publisher_ctor lib std_hash pub_name address w)
    = Called call_addPubSubTransportLayer st0
      :: Called (call_addPubSubConnection
                   (connect_config std_hash pub_name address)) st1
      :: rest
    /\ forall cfg st, ~ In (Called (call_addPubSubConnection cfg) st) rest.
Proof.
  unfold Publisher_ctor, bind, get_this, ret, invoke, invoke_, UA_LOG_ERROR,
    trace_of.
  cbn [this server set_name _name _server].
  destruct (UA_ServerConfig_addPubSubTransportLayer lib (server w)
              (_server (this w))) as [st0 s0].
  cbn [this server set_name _name _server].
  destruct (UA_Server_addPubSubConnection lib s0 (_server (this w))
              (connect_config std_hash pub_name address)) as [[st1 out1] s1].
  cbn [this server set_name _name _server set_connection_id].
  exists st0, st1.
  destruct (negb (st1 =? UA_STATUSCODE_GOOD)).
  - eexists. split; [ reflexivity | ].
    intros cfg st [H | []]. discriminate.
  - cbn [this server set_name _name _server set_connection_id].
    destruct (UA_Server_addPublishedDataSet lib s1 (_server (this w))
                (pds_config pub_name)) as [[st2 out2] s2].
    destruct (negb (st2 =? UA_STATUSCODE_GOOD)).
    + eexists. split; [ reflexivity | ].
      intros cfg st [H | [H | []]]; discriminate.
    + eexists. split; [ reflexivity | ].
      intros cfg st [H | []]. discriminate.
Qed.

(** C4.  The preconditions come first: with a null server pointer [publish]
    throws [RMVL_StsNullPtr]; with a server but a null connection id it
    returns [false]; in both cases no library call is made and the object
    and the library are left as they were. *)
Theorem publish_preconditions (datas : list PublishedDataSet)
    (d : spec_float) (w : world) :
  (_server (this w) = nullptr ->
   publish' datas d w
   = (Raise (rm_Exception RMVL_StsNullPtr "Server is nullptr."), w, []))
  /\
  (_server (this w) <> nullptr ->
   UA_NodeId_isNull lib (_connection_id (this w)) = true ->
   publish' datas d w = (Ret false, w, [])).
Proof.
  split.
  - apply publish_null_server.
  - apply publish_null_connection.
Qed.

(** The configurations that reach the library are the ones built from the
    name. *)
Lemma ctor_connection_config (name address : string) (w : world)
    (cfg : UA_PubSubConnectionConfig) (st : UA_StatusCode) :
  In (Called (call_addPubSubConnection cfg) st)
     (trace_of (Publisher_ctor lib std_hash name address w)) ->
  cfg = connect_config std_hash name address.
Proof.
  intros H.
  destruct (Publisher_ctor_calls name address w) as (st0 & st1 & rest & E & Hno).
  rewrite E in H. destruct H as [H | [H | H]].
  - discriminate.
  - congruence.
  - destruct (Hno cfg st H).
Qed.

Lemma publish_writer_group_config (datas : list PublishedDataSet)
    (d : spec_float) (w : world)
    (conn : UA_NodeId) (cfg : UA_WriterGroupConfig) (st : UA_StatusCode) :
  In (Called (call_addWriterGroup conn cfg) st) (trace_of (publish' datas d w)) ->
  cfg = wg_config std_hash (_name (this w)) d.
Proof.
  intros H.
  destruct (publish_calls_prefix datas d w) as (wg & Hpre).
  apply In_calls_of in H. apply (prefix_In _ _ _ Hpre) in H.
  apply In_expected_calls in H.
  destruct H as [(pds & H) | [H | [H | H]]]; try discriminate.
  congruence.
Qed.

Lemma publish_dataset_writer_config (datas : list PublishedDataSet)
    (d : spec_float) (w : world)
    (wg0 pds : UA_NodeId) (cfg : UA_DataSetWriterConfig) (st : UA_StatusCode) :
  In (Called (call_addDataSetWriter wg0 pds cfg) st)
     (trace_of (publish' datas d w)) ->
  cfg = dsw_config std_hash KEY_FRAME_COUNT (_name (this w)).
Proof.
  intros H.
  destruct (publish_calls_prefix datas d w) as (wg & Hpre).
  apply In_calls_of in H. apply (prefix_In _ _ _ Hpre) in H.
  apply In_expected_calls in H.
  destruct H as [(pds' & H) | [H | [H | H]]]; try discriminate.
  congruence.
Qed.

(** C5.  The ids are functions of the publisher name alone: the publisher
    id of the connection is the hash of [name + "Connection"] modulo 2^27,
    the writer-group id and the data-set-writer id are the hashes of
    [name + "WriterGroup"] and [name + "DataSetWriter"] modulo 2^15; each is
    below its bound; the constructor and [publish] pass exactly these ids to
    the library; two publishers of the same name pass identical ids,
    whatever their address, their data sets, their interval and the state
    they run in. *)
Theorem ids_from_name (name address address2 : string) (d d2 : spec_float)
    (datas datas2 : list PublishedDataSet) (w w2 : world) :
  (publisherId_numeric (connect_config std_hash name address)
   = _strhash std_hash (name +:+ "Connection") mod 2 ^ 27
   /\ 0 <= publisherId_numeric (connect_config std_hash name address) < 2 ^ 27)
  /\
  (writerGroupId (wg_config std_hash name d)
   = _strhash std_hash (name +:+ "WriterGroup") mod 2 ^ 15
   /\ 0 <= writerGroupId (wg_config std_hash name d) < 2 ^ 15)
  /\
  (dataSetWriterId (dsw_config std_hash KEY_FRAME_COUNT name)
   = _strhash std_hash (name +:+ "DataSetWriter") mod 2 ^ 15
   /\ 0 <= dataSetWriterId (dsw_config std_hash KEY_FRAME_COUNT name) < 2 ^ 15)
  /\
  (exists st,
     In (Called (call_addPubSubConnection
                   (connect_config std_hash name address)) st)
        (trace_of (Publisher_ctor lib std_hash name address w)))
  /\
  (forall cfg st,
     In (Called (call_addPubSubConnection cfg) st)
        (trace_of (Publisher_ctor lib std_hash name address w)) ->
     cfg = connect_config std_hash name address)
  /\
  (forall conn cfg st,
     In (Called (call_addWriterGroup conn cfg) st)
        (trace_of (publish' datas d w)) ->
     cfg = wg_config std_hash (_name (this w)) d)
  /\
  (forall wg pds cfg st,
     In (Called (call_addDataSetWriter wg pds cfg) st)
        (trace_of (publish' datas d w)) ->
     cfg = dsw_config std_hash KEY_FRAME_COUNT (_name (this w)))
  /\
  (forall cfg st cfg2 st2,
     In (Called (call_addPubSubConnection cfg) st)
        (trace_of (Publisher_ctor lib std_hash name address w)) ->
     In (Called (call_addPubSubConnection cfg2) st2)
        (trace_of (Publisher_ctor lib std_hash name address2 w2)) ->
     publisherId_numeric cfg = publisherId_numeric cfg2)
  /\
  (_name (this w) = _name (this w2) ->
   (forall conn cfg st conn2 cfg2 st2,
      In (Called (call_addWriterGroup conn cfg) st)
         (trace_of (publish' datas d w)) ->
      In (Called (call_addWriterGroup conn2 cfg2) st2)
         (trace_of (publish' datas2 d2 w2)) ->
      writerGroupId cfg = writerGroupId cfg2)
   /\
   (forall wg pds cfg st wg2 pds2 cfg2 st2,
      In (Called (call_addDataSetWriter wg pds cfg) st)
         (trace_of (publish' datas d w)) ->
      In (Called (call_addDataSetWriter wg2 pds2 cfg2) st2)
         (trace_of (publish' datas2 d2 w2)) ->
      dataSetWriterId cfg = dataSetWriterId cfg2)).
Proof.
  assert (B27 : forall z, to_UInt32 (z mod 2 ^ 27) = z mod 2 ^ 27).
  { intros z. apply to_UInt32_small.
    pose proof (Z.mod_pos_bound z (2 ^ 27)). lia. }
  assert (B15 : forall z, to_UInt16 (z mod 2 ^ 15) = z mod 2 ^ 15).
  { intros z. unfold to_UInt16. apply Z.mod_small.
    pose proof (Z.mod_pos_bound z (2 ^ 15)). lia. }
  split; [ | split; [ | split; [ | split; [ | split; [ | split; [ | split; [ | split ] ] ] ] ] ] ].
  - cbn [connect_config publisherId_numeric].
    change 0x8000000 with (2 ^ 27). rewrite B27.
    split; [ reflexivity | apply Z.mod_pos_bound; lia ].
  - cbn [wg_config writerGroupId].
    change 0x8000 with (2 ^ 15). rewrite B15.
    split; [ reflexivity | apply Z.mod_pos_bound; lia ].
  - cbn [dsw_config dataSetWriterId].
    change 0x8000 with (2 ^ 15). rewrite B15.
    split; [ reflexivity | apply Z.mod_pos_bound; lia ].
  - destruct (Publisher_ctor_calls name address w) as (st0 & st1 & rest & E & _).
    rewrite E. exists st1. right. left. reflexivity.
  - apply ctor_connection_config.
  - apply publish_writer_group_config.
  - apply publish_dataset_writer_config.
  - intros cfg st cfg2 st2 H H2.
    apply ctor_connection_config in H. apply ctor_connection_config in H2.
    subst. reflexivity.
  - intros Hname. split.
    + intros conn cfg st conn2 cfg2 st2 H H2.
      apply publish_writer_group_config in H.
      apply publish_writer_group_config in H2.
      subst. rewrite Hname. reflexivity.
    + intros wg pds cfg st wg2 pds2 cfg2 st2 H H2.
      apply publish_dataset_writer_config in H.
      apply publish_dataset_writer_config in H2.
      subst. rewrite Hname. reflexivity.
Qed.

End PublisherTheory.

(** *** The publisher on the sample library *)

Lemma ready_run :
  publish scripted_lib sample_hash 10 sample_datas sample_duration
    (sample_world ready_publisher [])
  = (Ret true,
     {| this := set_dsw_id (Some (mkNodeId 1 (numeric 6)))
                  (set_wg_id (Some (mkNodeId 1 (numeric 5))) ready_publisher);
        server := {| answers := []; issued := 6 |} |},
     [ Called (field_call ready_publisher
                 {| pd_name := "speed"; pd_node_id := mkNodeId 1 (numeric 100) |}) 0;
       Called (field_call ready_publisher
                 {| pd_name := "angle"; pd_node_id := mkNodeId 1 (numeric 101) |}) 0;
       Called (call_addWriterGroup (mkNodeId 1 (numeric 1))
                 (wg_config sample_hash "pub" sample_duration)) 0;
       Called (call_setWriterGroupOperational (mkNodeId 1 (numeric 5))) 0;
       Called (call_addDataSetWriter (mkNodeId 1 (numeric 5))
                 (mkNodeId 1 (numeric 2)) (dsw_config sample_hash 10 "pub")) 0 ]).
Proof. vm_compute. reflexivity. Qed.

(** A failing call makes [publish] return [false]: the second field is
    refused with status 7. *)
Lemma failing_field_run :
  result_of (publish scripted_lib sample_hash 10 sample_datas sample_duration
               (sample_world ready_publisher [0; 7]))
  = Ret false
  /\ calls_of (trace_of (publish scripted_lib sample_hash 10 sample_datas
                           sample_duration (sample_world ready_publisher [0; 7])))
     = map (field_call ready_publisher) sample_datas.
Proof. vm_compute. split; reflexivity. Qed.

(** C2 as stated fails on [publish]: two data sets and a library that
    accepts every call give five library calls, not one. *)
Lemma publish_single_call_counterexample :
  ~ (length (calls_of
               (trace_of (publish scripted_lib sample_hash 10 sample_datas
                            sample_duration (sample_world ready_publisher []))))
     = 1%nat).
Proof. rewrite ready_run. cbn. discriminate. Qed.

(** C4 on a publisher without a server and on one without a connection. *)
Lemma publish_preconditions_witness :
  publish scripted_lib sample_hash 10 sample_datas sample_duration
    (sample_world null_publisher [])
  = (Raise (rm_Exception RMVL_StsNullPtr "Server is nullptr."),
     sample_world null_publisher [], [])
  /\
  publish scripted_lib sample_hash 10 sample_datas sample_duration
    (sample_world unconnected_publisher [])
  = (Ret false, sample_world unconnected_publisher [], []).
Proof.
  split.
  - apply (proj1 (publish_preconditions scripted_lib sample_hash 10
                    sample_datas sample_duration
                    (sample_world null_publisher []))).
    reflexivity.
  - apply (proj2 (publish_preconditions scripted_lib sample_hash 10
                    sample_datas sample_duration
                    (sample_world unconnected_publisher []))).
    + vm_compute. discriminate.
    + reflexivity.
Defined.

(** C5 on the publisher named [pub]: the writer-group configuration handed
    to the library is the one computed from the name, with id 19414. *)
Lemma ids_from_name_witness :
  In (Called (call_addWriterGroup (mkNodeId 1 (numeric 1))
                (wg_config sample_hash "pub" sample_duration)) 0)
     (trace_of (publish scripted_lib sample_hash 10 sample_datas
                  sample_duration (sample_world ready_publisher [])))
  /\ wg_config sample_hash "pub" sample_duration
     = wg_config sample_hash
         (_name (this (sample_world ready_publisher []))) sample_duration
  /\ writerGroupId (wg_config sample_hash "pub" sample_duration) = 19414.
Proof.
  assert (H : In (Called (call_addWriterGroup (mkNodeId 1 (numeric 1))
                            (wg_config sample_hash "pub" sample_duration)) 0)
                (trace_of (publish scripted_lib sample_hash 10 sample_datas
                             sample_duration (sample_world ready_publisher [])))).
  { rewrite ready_run. cbn [trace_of snd]. right. right. left. reflexivity. }
  destruct (ids_from_name scripted_lib sample_hash 10 "pub"
              "opc.udp://224.0.0.22:4840" "opc.udp://224.0.0.23:4840"
              sample_duration sample_duration sample_datas []
              (sample_world ready_publisher [])
              (sample_world ready_publisher [0; 7]))
    as (_ & _ & _ & _ & _ & Hwg & _).
  split; [ exact H | split ].
  - exact (Hwg _ _ _ H).
  - vm_compute. reflexivity.
Defined.

(** * Properties of the client *)

Section ClientTheory.

Context {DataChangeNotificationCallback EventNotificationCallback C : Type}.
Variable clib : UA_ClientLibrary C.
Variable node_key : UA_NodeId -> Z.

Local Abbreviation Client' :=
  (Client DataChangeNotificationCallback EventNotificationCallback).
Local Abbreviation monitor' := (Client_monitor (EventNotificationCallback:=EventNotificationCallback) clib node_key).
Local Abbreviation monitor_event' := (Client_monitor_event (DataChangeNotificationCallback:=DataChangeNotificationCallback) clib node_key).
Local Abbreviation remove' := (Client_remove (DataChangeNotificationCallback:=DataChangeNotificationCallback) (EventNotificationCallback:=EventNotificationCallback) clib node_key).

Lemma monitor_records (node : UA_NodeId)
    (on_change : DataChangeNotificationCallback) (queue_size : Z)
    (self : Client') (s : C) :
  (monitor' node on_change queue_size self s).1.1 = true ->
  _monitor_map (monitor' node on_change queue_size self s).1.2
    !! node_key node
  = Some (create_data_change clib s node (to_UInt32 queue_size)).1.2.
Proof.
  unfold Client_monitor.
  destruct (create_data_change clib s node (to_UInt32 queue_size))
    as [[status ids] s'].
  destruct (negb (status =? UA_STATUSCODE_GOOD)); cbn; [ discriminate | ].
  intros _. apply lookup_insert_eq.
Qed.

Lemma monitor_event_records (node : UA_NodeId) (names : list string)
    (on_event : EventNotificationCallback) (self : Client') (s : C) :
  (monitor_event' node names on_event self s).1.1 = true ->
  _monitor_map (monitor_event' node names on_event self s).1.2
    !! node_key node
  = Some (create_event clib s node names).1.2.
Proof.
  unfold Client_monitor_event.
  destruct (create_event clib s node names) as [[status ids] s'].
  destruct (negb (status =? UA_STATUSCODE_GOOD)); cbn; [ discriminate | ].
  intros _. apply lookup_insert_eq.
Qed.

Lemma monitor_other_keys (node : UA_NodeId)
    (on_change : DataChangeNotificationCallback) (queue_size : Z)
    (self : Client') (s : C) (k : Z) :
  k <> node_key node ->
  _monitor_map (monitor' node on_change queue_size self s).1.2 !! k
  = _monitor_map self !! k.
Proof.
  intros Hk. unfold Client_monitor.
  destruct (create_data_change clib s node (to_UInt32 queue_size))
    as [[status ids] s'].
  destruct (negb (status =? UA_STATUSCODE_GOOD)); cbn; [ reflexivity | ].
  apply lookup_insert_ne. congruence.
Qed.

Lemma monitor_refused_keeps (node : UA_NodeId)
    (on_change : DataChangeNotificationCallback) (queue_size : Z)
    (self : Client') (s : C) :
  (monitor' node on_change queue_size self s).1.1 = false ->
  (monitor' node on_change queue_size self s).1.2 = self.
Proof.
  unfold Client_monitor.
  destruct (create_data_change clib s node (to_UInt32 queue_size))
    as [[status ids] s'].
  destruct (negb (status =? UA_STATUSCODE_GOOD)); cbn;
    [ reflexivity | discriminate ].
Qed.

Lemma monitor_true_iff (node : UA_NodeId)
    (on_change : DataChangeNotificationCallback) (queue_size : Z)
    (self : Client') (s : C) :
  (monitor' node on_change queue_size self s).1.1 = true
  <-> (create_data_change clib s node (to_UInt32 queue_size)).1.1
      = UA_STATUSCODE_GOOD.
Proof.
  unfold Client_monitor.
  destruct (create_data_change clib s node (to_UInt32 queue_size))
    as [[status ids] s'].
  cbn [fst]. destruct (negb (status =? UA_STATUSCODE_GOOD)) eqn:E; cbn [fst].
  - apply negb_true_iff, Z.eqb_neq in E. split; [ discriminate | contradiction ].
  - apply negb_false_iff, Z.eqb_eq in E. split; [ intros _; exact E | reflexivity ].
Qed.

Lemma remove_true_iff (node : UA_NodeId) (self : Client') (s : C) :
  (remove' node self s).1.1 = true
  <-> exists sub_id mon_id,
        _monitor_map self !! node_key node = Some (sub_id, mon_id)
        /\ (delete_monitored_item clib s sub_id mon_id).1 = UA_STATUSCODE_GOOD.
Proof.
  unfold Client_remove.
  destruct (_monitor_map self !! node_key node) as [[sub_id mon_id] | ].
  - destruct (delete_monitored_item clib s sub_id mon_id) as [status s'] eqn:Ed.
    destruct (negb (status =? UA_STATUSCODE_GOOD)) eqn:E; cbn [fst].
    + apply negb_true_iff, Z.eqb_neq in E. split; [ discriminate | ].
      intros (sub & mon & Hl & Hd). injection Hl as <- <-.
      rewrite Ed in Hd. contradiction.
    + apply negb_false_iff, Z.eqb_eq in E. split; [ | reflexivity ].
      intros _. exists sub_id, mon_id. rewrite Ed. split; [ reflexivity | exact E ].
  - cbn. split; [ discriminate | ]. intros (sub & mon & Hl & _). discriminate.
Qed.

Lemma remove_erases (node : UA_NodeId) (self : Client') (s : C) :
  (remove' node self s).1.1 = true ->
  _monitor_map (remove' node self s).1.2
  = delete (node_key node) (_monitor_map self).
Proof.
  unfold Client_remove.
  destruct (_monitor_map self !! node_key node) as [[sub_id mon_id] | ];
    [ | cbn; discriminate ].
  destruct (delete_monitored_item clib s sub_id mon_id) as [status s'].
  destruct (negb (status =? UA_STATUSCODE_GOOD)); cbn;
    [ discriminate | reflexivity ].
Qed.

Lemma remove_false_keeps (node : UA_NodeId) (self : Client') (s : C) :
  (remove' node self s).1.1 = false -> (remove' node self s).1.2 = self.
Proof.
  unfold Client_remove.
  destruct (_monitor_map self !! node_key node) as [[sub_id mon_id] | ];
    [ | reflexivity ].
  destruct (delete_monitored_item clib s sub_id mon_id) as [status s'].
  destruct (negb (status =? UA_STATUSCODE_GOOD)); cbn;
    [ reflexivity | discriminate ].
Qed.

Lemma remove_absent (node : UA_NodeId) (self : Client') (s : C) :
  _monitor_map self !! node_key node = None ->
  remove' node self s = (false, self, s).
Proof. intros H. unfold Client_remove. rewrite H. reflexivity. Qed.

Lemma remove_same_key (node node2 : UA_NodeId) (self : Client') (s : C) :
  node_key node2 = node_key node ->
  remove' node2 self s = remove' node self s.
Proof. intros H. unfold Client_remove. rewrite H. reflexivity. Qed.


End ClientTheory.



(** Nodes with the same key: node 7 of name space 2 was never monitored,
    yet removing it succeeds and erases the entry of node 7 of name
    space 1. *)
Lemma remove_colliding_node :
  mkNodeId 2 (numeric 7) <> mkNodeId 1 (numeric 7)
  /\ (Client_remove sample_clib sample_node_key (mkNodeId 2 (numeric 7))
        (Client_monitor sample_clib sample_node_key (mkNodeId 1 (numeric 7))
           tt 10 sample_client 0).1.2 2).1.1 = true
  /\ _monitor_map
       (Client_remove sample_clib sample_node_key (mkNodeId 2 (numeric 7))
          (Client_monitor sample_clib sample_node_key (mkNodeId 1 (numeric 7))
             tt 10 sample_client 0).1.2 2).1.2
     !! sample_node_key (mkNodeId 1 (numeric 7)) = None.
Proof.
  split; [ discriminate | ].
  assert (Hk : sample_node_key (mkNodeId 2 (numeric 7))
               = sample_node_key (mkNodeId 1 (numeric 7))) by reflexivity.
  rewrite (remove_same_key sample_clib sample_node_key _ _ _ _ Hk).
  assert (Hok : (Client_remove sample_clib sample_node_key
                   (mkNodeId 1 (numeric 7))
                   (Client_monitor sample_clib sample_node_key
                      (mkNodeId 1 (numeric 7)) tt 10 sample_client 0).1.2 2).1.1
                = true).
  { apply remove_true_iff. exists 1, 2. split; [ | reflexivity ].
    apply (monitor_records sample_clib sample_node_key
             (mkNodeId 1 (numeric 7)) tt 10 sample_client 0).
    reflexivity. }
  split; [ exact Hok | ].
  rewrite (remove_erases _ _ _ _ _ Hok). apply lookup_delete_eq.
Qed.

(** When the library refuses the monitored item nothing is recorded. *)
Example monitor_refused :
  Client_monitor failing_clib sample_node_key (mkNodeId 1 (numeric 7)) tt 10
    sample_client 0
  = (false, sample_client, 0).
Proof. reflexivity. Qed.

Section ClientTimerTheory.

Context {Callback : Type}.

(** C8.  [Client] and [ClientTimer] have their copy operations deleted and
    their move operations defaulted; the destructor of [ClientTimer] is
    [cancel], so once a timer object is destroyed its timer is not active
    any more, whatever the state of the registry. *)
Theorem ClientTimer_raii (t : ClientTimer Callback) (r : timer_registry)
    (sv : Z) (period : spec_float) (callback : Callback) :
  (copyable Client_special = false /\ movable Client_special = true)
  /\ (copyable ClientTimer_special = false /\ movable ClientTimer_special = true)
  /\ ClientTimer_special destructor = user_provided
  /\ ClientTimer_dtor t r = ClientTimer_cancel t r
  /\ (_id t ∉ active (ClientTimer_dtor t r))
  /\ (_id (ClientTimer_ctor sv period callback r).1
        ∈ active (ClientTimer_ctor sv period callback r).2)
  /\ (_id (ClientTimer_ctor sv period callback r).1
        ∉ active (ClientTimer_dtor (ClientTimer_ctor sv period callback r).1
                    (ClientTimer_ctor sv period callback r).2)).
Proof.
  assert (Hgone : forall (x : ClientTimer Callback) (q : timer_registry),
             _id x ∉ active (ClientTimer_dtor x q)).
  { intros x q. unfold ClientTimer_dtor, ClientTimer_cancel. cbn [active].
    rewrite elem_of_difference. intros [_ H]. apply H.
    apply elem_of_singleton. reflexivity. }
  repeat split; try reflexivity.
  - apply Hgone.
  - unfold ClientTimer_ctor. cbn.
    apply elem_of_union_l, elem_of_singleton. reflexivity.
  - apply Hgone.
Qed.

End ClientTimerTheory.

(** * Further properties of the publisher *)

Lemma status_bad_dec (st : UA_StatusCode) :
  negb (st =? UA_STATUSCODE_GOOD) = true <-> st <> UA_STATUSCODE_GOOD.
Proof. rewrite negb_true_iff. apply Z.eqb_neq. Qed.

Lemma logs_of_app (t1 t2 : list event) :
  logs_of (t1 ++ t2) = logs_of t1 ++ logs_of t2.
Proof. unfold logs_of. apply omap_app. Qed.

Lemma logs_of_accepted_fields (p : Publisher) (datas : list PublishedDataSet) :
  logs_of (accepted_fields p datas) = [].
Proof. induction datas as [ | pds rest IH ]; [ reflexivity | exact IH ]. Qed.

Lemma calls_of_accepted_fields (p : Publisher) (datas : list PublishedDataSet) :
  calls_of (accepted_fields p datas) = map (field_call p) datas.
Proof.
  induction datas as [ | pds rest IH ]; [ reflexivity | ].
  cbn. f_equal. exact IH.
Qed.

Lemma all_calls_good_accepted_fields (p : Publisher)
    (datas : list PublishedDataSet) :
  all_calls_good (accepted_fields p datas).
Proof.
  induction datas as [ | pds rest IH ]; constructor; [ reflexivity | exact IH ].
Qed.

Section PublishRunsTheory.

Context {S : Type}.
Variable lib : UA_Library S.
Variable std_hash : string -> Z.
Variable KEY_FRAME_COUNT : Z.

Local Abbreviation publish' := (publish lib std_hash KEY_FRAME_COUNT).
Local Abbreviation publish_run' := (publish_run std_hash KEY_FRAME_COUNT).

(** The loop, exactly: either every field was accepted, or the calls stop at
    the first refused field, which is logged. *)
Lemma add_fields_shape (datas : list PublishedDataSet) (w : world) :
  exists (b : bool) (s' : S) (t : list event),
    add_fields lib datas w = (Ret b, {| this := this w; server := s' |}, t)
    /\ ((b = true /\ t = accepted_fields (this w) datas)
        \/ (b = false
            /\ exists done pds rest st,
                 datas = done ++ pds :: rest
                 /\ st <> UA_STATUSCODE_GOOD
                 /\ t = accepted_fields (this w) done
                        ++ [ Called (field_call (this w) pds) st;
                             Logged (Failed_to_add_dataset_field
                                       (c_str (pd_name pds)) st) ])).
Proof.
  revert w. induction datas as [ | pds rest IH ]; intros w.
  - exists true, (server w), []. destruct w. cbn. split; [ reflexivity | ].
    left. split; reflexivity.
  - cbn [add_fields]. unfold bind, get_this, invoke, UA_LOG_ERROR, ret, no_out.
    destruct (UA_Server_addDataSetField lib (server w) (_server (this w))
                (_pds_id (this w)) (getPDS pds)) as [[st out] s1] eqn:Ecall.
    destruct (negb (st =? UA_STATUSCODE_GOOD)) eqn:Est.
    + apply status_bad_dec in Est.
      exists false, s1. eexists. split; [ reflexivity | ].
      right. split; [ reflexivity | ].
      exists [], pds, rest, st. repeat split; assumption.
    + apply status_good_dec in Est. subst st.
      destruct (IH {| this := this w; server := s1 |})
        as (b & s2 & t & E & Hcases).
      cbn [this server] in *. rewrite E.
      exists b, s2. eexists. split; [ reflexivity | ].
      destruct Hcases as [[-> ->] | (-> & done & pds' & rest' & st & -> & Hst & ->)].
      * left. split; reflexivity.
      * right. split; [ reflexivity | ].
        exists (pds :: done), pds', rest', st. repeat split; assumption.
Qed.

(** Every run of [publish] past its preconditions is one of the five. *)
Lemma publish_runs (datas : list PublishedDataSet) (d : spec_float)
    (w : world) :
  _server (this w) <> nullptr ->
  UA_NodeId_isNull lib (_connection_id (this w)) = false ->
  exists (b : bool) (p' : Publisher) (s' : S) (t : list event),
    publish' datas d w = (Ret b, {| this := p'; server := s' |}, t)
    /\ publish_run' (this w) datas d b p' t.
Proof.
  intros Hs Hc. apply Z.eqb_neq in Hs.
  unfold publish, bind, get_this, ret. rewrite Hs, Hc.
  destruct (add_fields_shape datas w) as (b & s1 & t1 & E & Hcases).
  rewrite E.
  destruct Hcases as [[-> ->] | (-> & done & pds & rest & st & Hd & Hst & ->)].
  2: { cbn [negb]. exists false, (this w), s1. eexists.
       split; [ reflexivity | ].
       cbn [app]. rewrite ?app_nil_r.
       apply (run_field_refused _ _ _ _ _ done pds rest st Hd Hst). }
  cbn [negb]. unfold invoke, invoke_, UA_LOG_ERROR. cbn [this server].
  destruct (UA_Server_addWriterGroup lib s1 (_server (this w))
              (_connection_id (this w)) (wg_config std_hash (_name (this w)) d))
    as [[st1 out1] s2].
  destruct (negb (st1 =? UA_STATUSCODE_GOOD)) eqn:E1.
  { apply status_bad_dec in E1.
    exists false. eexists. eexists. eexists. split; [ reflexivity | ].
    cbn [app]. rewrite ?app_nil_r.
    apply (run_group_refused _ _ _ _ _ st1 out1 E1). }
  apply status_good_dec in E1. subst st1.
  cbn [this server set_wg_id _wg_id _pds_id _name _server _connection_id].
  destruct (UA_Server_setWriterGroupOperational lib s2 (_server (this w))
              (store out1 (_wg_id (this w)))) as [st2 s3].
  destruct (negb (st2 =? UA_STATUSCODE_GOOD)) eqn:E2.
  { apply status_bad_dec in E2.
    exists false. eexists. eexists. eexists. split; [ reflexivity | ].
    cbn [app]. rewrite ?app_nil_r.
    apply (run_not_operational _ _ _ _ _ st2 out1 E2). }
  apply status_good_dec in E2. subst st2.
  cbn [this server set_wg_id _wg_id _pds_id _name _server _connection_id].
  destruct (UA_Server_addDataSetWriter lib s3 (_server (this w))
              (store out1 (_wg_id (this w))) (_pds_id (this w))
              (dsw_config std_hash KEY_FRAME_COUNT (_name (this w))))
    as [[st3 out3] s4].
  destruct (negb (st3 =? UA_STATUSCODE_GOOD)) eqn:E3.
  { apply status_bad_dec in E3.
    exists false. eexists. eexists. eexists. split; [ reflexivity | ].
    cbn [app]. rewrite ?app_nil_r.
    apply (run_writer_refused _ _ _ _ _ st3 out1 out3 E3). }
  apply status_good_dec in E3. subst st3.
  exists true. eexists. eexists. eexists. split; [ reflexivity | ].
  cbn [app]. rewrite ?app_nil_r.
  apply (run_published _ _ _ _ _ out1 out3).
Qed.

(** The three ways [publish] can go, preconditions included. *)
Lemma publish_outcomes (datas : list PublishedDataSet) (d : spec_float)
    (w : world) :
  publish' datas d w
  = (Raise (rm_Exception RMVL_StsNullPtr "Server is nullptr."), w, [])
  \/ publish' datas d w = (Ret false, w, [])
  \/ exists (b : bool) (p' : Publisher) (s' : S) (t : list event),
       publish' datas d w = (Ret b, {| this := p'; server := s' |}, t)
       /\ publish_run' (this w) datas d b p' t.
Proof.
  destruct (Z.eq_dec (_server (this w)) nullptr) as [Hs | Hs].
  - left. apply publish_null_server, Hs.
  - destruct (UA_NodeId_isNull lib (_connection_id (this w))) eqn:Hc.
    + right. left. apply publish_null_connection; assumption.
    + right. right. apply publish_runs; assumption.
Qed.

Lemma In_accepted_fields (e : event) (p : Publisher)
    (datas : list PublishedDataSet) :
  In e (accepted_fields p datas) ->
  exists pds, In pds datas /\ e = Called (field_call p pds) UA_STATUSCODE_GOOD.
Proof.
  unfold accepted_fields. intros H. apply in_map_iff in H.
  destruct H as (pds & <- & Hin). exists pds. split; [ exact Hin | reflexivity ].
Qed.

(** X1.  Whatever happens, [publish] leaves the server pointer, the name,
    the connection id and the published-data-set id of the object as they
    were; the writer-group id changes only in a run that called
    [addWriterGroup], the data-set-writer id only in a run that called
    [addDataSetWriter]. *)
Theorem publish_frame (datas : list PublishedDataSet) (d : spec_float)
    (w : world) :
  _server (this (state_of (publish' datas d w))) = _server (this w)
  /\ _name (this (state_of (publish' datas d w))) = _name (this w)
  /\ _connection_id (this (state_of (publish' datas d w)))
     = _connection_id (this w)
  /\ _pds_id (this (state_of (publish' datas d w))) = _pds_id (this w)
  /\ ((forall conn cfg, ~ In (call_addWriterGroup conn cfg)
                            (calls_of (trace_of (publish' datas d w)))) ->
      _wg_id (this (state_of (publish' datas d w))) = _wg_id (this w))
  /\ ((forall wg pds cfg, ~ In (call_addDataSetWriter wg pds cfg)
                              (calls_of (trace_of (publish' datas d w)))) ->
      _dsw_id (this (state_of (publish' datas d w))) = _dsw_id (this w)).
Proof.
  destruct (publish_outcomes datas d w)
    as [E | [E | (b & p' & s' & t & E & Hrun)]]; rewrite E;
    cbn [state_of trace_of fst snd this].
  1, 2: repeat split; reflexivity.
  destruct Hrun; cbn [set_wg_id set_dsw_id _server _name _connection_id
                        _pds_id _wg_id _dsw_id];
    (split; [ reflexivity | split; [ reflexivity | split; [ reflexivity |
      split; [ reflexivity | split ] ] ] ]);
    try reflexivity; intros Hno; exfalso;
    rewrite calls_of_app in Hno; cbn in Hno.
  - eapply Hno. apply in_or_app. right. left. reflexivity.
  - eapply Hno. apply in_or_app. right. left. reflexivity.
  - eapply Hno. apply in_or_app. right. left. reflexivity.
  - eapply Hno. apply in_or_app. right. right. right. left. reflexivity.
  - eapply Hno. apply in_or_app. right. left. reflexivity.
  - eapply Hno. apply in_or_app. right. right. right. left. reflexivity.
Qed.

(** X2.  Past its preconditions [publish] logs exactly when it fails: it
    returns [true] if and only if it logged nothing; when it returns
    [false] the trace ends with the refused call followed by the one log
    line, which reports the status of that call, and every call before it
    was accepted without a log line. *)
Theorem publish_logs_once (datas : list PublishedDataSet) (d : spec_float)
    (w : world) :
  _server (this w) <> nullptr ->
  UA_NodeId_isNull lib (_connection_id (this w)) = false ->
  exists b : bool,
    result_of (publish' datas d w) = Ret b
    /\ (b = true <-> logs_of (trace_of (publish' datas d w)) = [])
    /\ (b = false ->
        exists pre c st l,
          trace_of (publish' datas d w) = pre ++ [Called c st; Logged l]
          /\ st <> UA_STATUSCODE_GOOD
          /\ log_status l = st
          /\ all_calls_good pre
          /\ logs_of pre = []).
Proof.
  intros Hs Hc.
  destruct (publish_runs datas d w Hs Hc) as (b & p' & s' & t & E & Hrun).
  rewrite E. cbn [result_of trace_of fst snd]. exists b.
  split; [ reflexivity | ].
  destruct Hrun as [done pds rest st Hd Hst | st out Hst | st out Hst
                   | st out out3 Hst | out out3].
  - split; [ split; [ discriminate | ] | ].
    + rewrite logs_of_app, logs_of_accepted_fields. discriminate.
    + intros _. exists (accepted_fields (this w) done). do 3 eexists.
      split; [ reflexivity | ].
      repeat split; try assumption.
      * apply all_calls_good_accepted_fields.
      * apply logs_of_accepted_fields.
  - split; [ split; [ discriminate | ] | ].
    + rewrite logs_of_app, logs_of_accepted_fields. discriminate.
    + intros _. exists (accepted_fields (this w) datas). do 3 eexists.
      split; [ reflexivity | ].
      repeat split; try assumption.
      * apply all_calls_good_accepted_fields.
      * apply logs_of_accepted_fields.
  - split; [ split; [ discriminate | ] | ].
    + rewrite logs_of_app, logs_of_accepted_fields. discriminate.
    + intros _.
      exists (accepted_fields (this w) datas
              ++ [Called (call_addWriterGroup (_connection_id (this w))
                            (wg_config std_hash (_name (this w)) d))
                    UA_STATUSCODE_GOOD]).
      do 3 eexists. split; [ rewrite <- app_assoc; reflexivity | ].
      repeat split; try assumption.
      * apply all_calls_good_app. split;
          [ apply all_calls_good_accepted_fields | repeat constructor ].
      * rewrite logs_of_app, logs_of_accepted_fields. reflexivity.
  - split; [ split; [ discriminate | ] | ].
    + rewrite logs_of_app, logs_of_accepted_fields. discriminate.
    + intros _.
      exists (accepted_fields (this w) datas
              ++ [Called (call_addWriterGroup (_connection_id (this w))
                            (wg_config std_hash (_name (this w)) d))
                    UA_STATUSCODE_GOOD;
                  Called (call_setWriterGroupOperational
                            (store out (_wg_id (this w))))
                    UA_STATUSCODE_GOOD]).
      do 3 eexists. split; [ rewrite <- app_assoc; reflexivity | ].
      repeat split; try assumption.
      * apply all_calls_good_app. split;
          [ apply all_calls_good_accepted_fields | repeat constructor ].
      * rewrite logs_of_app, logs_of_accepted_fields. reflexivity.
  - split; [ split; [ intros _ | reflexivity ] | discriminate ].
    rewrite logs_of_app, logs_of_accepted_fields. reflexivity.
Qed.

Ltac in_run_tail H :=
  apply in_app_or in H;
  destruct H as [H | H];
  [ apply In_accepted_fields in H; destruct H as (? & ? & H); try discriminate H
  | cbn in H;
    repeat (destruct H as [H | H]; [ try discriminate H | ]);
    try (exfalso; exact H) ].

(** X4.  Past its preconditions [publish] always reaches the library: its
    first event is the [addDataSetField] call for the first element of
    [datas], or, when [datas] is empty, the [addWriterGroup] call. *)
Theorem publish_first_call (datas : list PublishedDataSet) (d : spec_float)
    (w : world) :
  _server (this w) <> nullptr ->
  UA_NodeId_isNull lib (_connection_id (this w)) = false ->
  exists st,
    hd_error (trace_of (publish' datas d w))
    = Some (Called
              match datas with
              | [] => call_addWriterGroup (_connection_id (this w))
                        (wg_config std_hash (_name (this w)) d)
              | pds :: _ => field_call (this w) pds
              end st).
Proof.
  intros Hs Hc.
  destruct (publish_runs datas d w Hs Hc) as (b & p' & s' & t & E & Hrun).
  rewrite E. cbn [trace_of snd].
  destruct Hrun as [done pds0 rest st0 Hd Hst | st0 out Hst | st0 out Hst
                   | st0 out out3 Hst | out out3].
  - subst datas. destruct done as [ | pds1 done ]; eexists; reflexivity.
  - destruct datas; eexists; reflexivity.
  - destruct datas; eexists; reflexivity.
  - destruct datas; eexists; reflexivity.
  - destruct datas; eexists; reflexivity.
Qed.

Lemma publish_keeps_name (datas : list PublishedDataSet) (d : spec_float)
    (w : world) :
  _name (this (state_of (publish' datas d w))) = _name (this w).
Proof.
  destruct (publish_outcomes datas d w)
    as [E | [E | (b & p' & s' & t & E & Hrun)]]; rewrite E;
    cbn [state_of fst snd this]; try reflexivity.
  destruct Hrun; reflexivity.
Qed.

(** X5.  Publishing again: a second [publish] on the object, whatever the
    first one did and whatever data sets and interval it is given, hands
    the library the writer-group id and the data-set-writer id of the
    first. *)
Theorem republish_same_ids (datas datas2 : list PublishedDataSet)
    (d d2 : spec_float) (w : world) :
  (forall conn cfg st,
     In (Called (call_addWriterGroup conn cfg) st)
        (trace_of (publish' datas2 d2 (state_of (publish' datas d w)))) ->
     writerGroupId cfg = writerGroupId (wg_config std_hash (_name (this w)) d))
  /\
  (forall wg pds cfg st,
     In (Called (call_addDataSetWriter wg pds cfg) st)
        (trace_of (publish' datas2 d2 (state_of (publish' datas d w)))) ->
     dataSetWriterId cfg
     = dataSetWriterId (dsw_config std_hash KEY_FRAME_COUNT (_name (this w)))).
Proof.
  split.
  - intros conn cfg st H.
    apply publish_writer_group_config in H. subst cfg.
    rewrite publish_keeps_name. reflexivity.
  - intros wg pds cfg st H.
    apply publish_dataset_writer_config in H. subst cfg.
    rewrite publish_keeps_name. reflexivity.
Qed.

(** The constructor, exactly. *)
Lemma Publisher_ctor_runs (pub_name address : string) (w : world) :
  exists (st0 st1 : UA_StatusCode) (out1 : option UA_NodeId) (s' : S)
         (p' : Publisher) (rest : list event),
    Publisher_ctor lib std_hash pub_name address w
    = (Ret tt, {| this := p'; server := s' |},
       Called call_addPubSubTransportLayer st0
       :: Called (call_addPubSubConnection
                    (connect_config std_hash pub_name address)) st1
       :: rest)
    /\ UA_Server_addPubSubConnection lib
         (UA_ServerConfig_addPubSubTransportLayer lib (server w)
            (_server (this w))).2
         (_server (this w)) (connect_config std_hash pub_name address)
       = ((st1, out1),
          (UA_Server_addPubSubConnection lib
             (UA_ServerConfig_addPubSubTransportLayer lib (server w)
                (_server (this w))).2
             (_server (this w)) (connect_config std_hash pub_name address)).2)
    /\ ((st1 <> UA_STATUSCODE_GOOD
         /\ p' = set_connection_id out1 (set_name pub_name (this w))
         /\ rest = [Logged (Failed_to_add_connection st1)])
        \/ (st1 = UA_STATUSCODE_GOOD
            /\ exists st2 out2,
                 p' = set_pds_id out2
                        (set_connection_id out1 (set_name pub_name (this w)))
                 /\ ((st2 = UA_STATUSCODE_GOOD
                      /\ rest = [Called (call_addPublishedDataSet
                                           (pds_config pub_name)) st2])
                     \/ (st2 <> UA_STATUSCODE_GOOD
                         /\ rest = [Called (call_addPublishedDataSet
                                              (pds_config pub_name)) st2;
                                    Logged (Failed_to_add_published_dataset
                                              st2)])))).
Proof.
  unfold Publisher_ctor, bind, get_this, ret, invoke, invoke_, UA_LOG_ERROR.
  cbn [this server set_name _name _server].
  destruct (UA_ServerConfig_addPubSubTransportLayer lib (server w)
              (_server (this w))) as [st0 s0].
  cbn [this server set_name _name _server snd].
  destruct (UA_Server_addPubSubConnection lib s0 (_server (this w))
              (connect_config std_hash pub_name address)) as [[st1 out1] s1].
  cbn [this server set_name _name _server set_connection_id snd].
  exists st0, st1, out1.
  destruct (negb (st1 =? UA_STATUSCODE_GOOD)) eqn:E1.
  - apply status_bad_dec in E1.
    eexists. eexists. eexists. split; [ reflexivity | ].
    split; [ reflexivity | ]. left. repeat split. exact E1.
  - apply status_good_dec in E1. subst st1.
    cbn [this server set_name _name _server set_connection_id].
    destruct (UA_Server_addPublishedDataSet lib s1 (_server (this w))
                (pds_config pub_name)) as [[st2 out2] s2].
    destruct (negb (st2 =? UA_STATUSCODE_GOOD)) eqn:E2.
    + apply status_bad_dec in E2.
      eexists. eexists. eexists. split; [ reflexivity | ].
      split; [ reflexivity | ]. right. split; [ reflexivity | ].
      exists st2, out2. split; [ reflexivity | ].
      right. split; [ exact E2 | reflexivity ].
    + apply status_good_dec in E2. subst st2.
      eexists. eexists. eexists. split; [ reflexivity | ].
      split; [ reflexivity | ]. right. split; [ reflexivity | ].
      exists UA_STATUSCODE_GOOD, out2. split; [ reflexivity | ].
      left. split; reflexivity.
Qed.

(** X6.  The constructor never throws.  It registers the transport layer
    and then adds the connection whatever status the registration returned;
    a refused connection is logged and ends the constructor; only after an
    accepted connection is the published data set added, and its refusal is
    logged as well. *)
Theorem Publisher_ctor_steps (pub_name address : string) (w : world) :
  result_of (Publisher_ctor lib std_hash pub_name address w) = Ret tt
  /\ exists st0 st1 rest,
       trace_of (Publisher_ctor lib std_hash pub_name address w)
       = Called call_addPubSubTransportLayer st0
         :: Called (call_addPubSubConnection
                      (connect_config std_hash pub_name address)) st1
         :: rest
       /\ (st1 <> UA_STATUSCODE_GOOD ->
           rest = [Logged (Failed_to_add_connection st1)])
       /\ (st1 = UA_STATUSCODE_GOOD ->
           exists st2,
             rest = Called (call_addPublishedDataSet (pds_config pub_name)) st2
                    :: (if st2 =? UA_STATUSCODE_GOOD then []
                        else [Logged (Failed_to_add_published_dataset st2)])).
Proof.
  destruct (Publisher_ctor_runs pub_name address w)
    as (st0 & st1 & out1 & s' & p' & rest & E & _ & Hcases).
  rewrite E. cbn [result_of trace_of fst snd].
  split; [ reflexivity | ].
  exists st0, st1, rest. split; [ reflexivity | ].
  destruct Hcases as [(Hbad & _ & ->) | (-> & st2 & out2 & _ & Hrest)].
  - split; [ reflexivity | ]. intros H. contradiction.
  - split; [ intros H; contradiction | ]. intros _. exists st2.
    destruct Hrest as [[-> ->] | [Hbad ->]].
    + reflexivity.
    + apply Z.eqb_neq in Hbad. rewrite Hbad. reflexivity.
Qed.

(** X7.  The constructor sets the name, leaves the server pointer, the
    writer-group id and the data-set-writer id as the base class and the
    member initialisers left them, and leaves the published-data-set id
    untouched when the connection was refused. *)
Theorem Publisher_ctor_frame (pub_name address : string) (w : world) :
  _name (this (state_of (Publisher_ctor lib std_hash pub_name address w)))
  = pub_name
  /\ _server (this (state_of (Publisher_ctor lib std_hash pub_name address w)))
     = _server (this w)
  /\ _wg_id (this (state_of (Publisher_ctor lib std_hash pub_name address w)))
     = _wg_id (this w)
  /\ _dsw_id (this (state_of (Publisher_ctor lib std_hash pub_name address w)))
     = _dsw_id (this w)
  /\ ((forall cfg st,
         In (Called (call_addPubSubConnection cfg) st)
            (trace_of (Publisher_ctor lib std_hash pub_name address w)) ->
         st <> UA_STATUSCODE_GOOD) ->
      _pds_id (this (state_of (Publisher_ctor lib std_hash pub_name address w)))
      = _pds_id (this w)).
Proof.
  destruct (Publisher_ctor_runs pub_name address w)
    as (st0 & st1 & out1 & s' & p' & rest & E & _ & Hcases).
  rewrite E. cbn [state_of trace_of fst snd this].
  destruct Hcases as [(Hbad & -> & ->) | (-> & st2 & out2 & -> & Hrest)];
    cbn [set_pds_id set_connection_id set_name _name _server _wg_id _dsw_id
           _pds_id];
    repeat split.
  intros Hall. exfalso.
  apply (Hall (connect_config std_hash pub_name address) UA_STATUSCODE_GOOD).
  - right. left. reflexivity.
  - reflexivity.
Qed.

(** X8.  Of the seven entry points through which the publisher configures
    PubSub on the server, the constructor calls only the three that set up
    the transport layer, the connection and the published data set, and
    [publish] calls none of these three, only the other four. *)
Theorem setup_and_publish_calls_disjoint (pub_name address : string)
    (datas : list PublishedDataSet) (d : spec_float) (w : world)
    (c : ua_call) :
  (In c (calls_of (trace_of (Publisher_ctor lib std_hash pub_name address w)))
   -> setup_call c = true)
  /\ (In c (calls_of (trace_of (publish' datas d w))) -> setup_call c = false).
Proof.
  split.
  - destruct (Publisher_ctor_runs pub_name address w)
      as (st0 & st1 & out1 & s' & p' & rest & E & _ & Hcases).
    rewrite E. cbn [trace_of snd].
    destruct Hcases as [(_ & _ & ->) | (_ & st2 & out2 & _ & [[_ ->] | [_ ->]])];
      cbn; intros H;
      repeat (destruct H as [H | H]; [ subst c; reflexivity | ]);
      destruct H.
  - intros H.
    destruct (publish_calls_prefix lib std_hash KEY_FRAME_COUNT datas d w)
      as (wg & Hpre).
    apply (prefix_In _ _ _ Hpre) in H.
    apply In_expected_calls in H.
    destruct H as [(pds & ->) | [-> | [-> | ->]]]; reflexivity.
Qed.

(** X9.  A publisher whose connection was refused does not publish: when
    the connection id member starts out null, and the library refuses the
    connection without storing an id, every later [publish] returns [false]
    without calling the library and without logging. *)
Theorem refused_connection_then_publish (pub_name address : string)
    (datas : list PublishedDataSet) (d : spec_float) (w : world)
    (st : UA_StatusCode) :
  _server (this w) <> nullptr ->
  UA_NodeId_isNull lib (_connection_id (this w)) = true ->
  (UA_Server_addPubSubConnection lib
     (UA_ServerConfig_addPubSubTransportLayer lib (server w)
        (_server (this w))).2
     (_server (this w)) (connect_config std_hash pub_name address)).1
  = (st, None) ->
  st <> UA_STATUSCODE_GOOD ->
  publish' datas d (state_of (Publisher_ctor lib std_hash pub_name address w))
  = (Ret false, state_of (Publisher_ctor lib std_hash pub_name address w), []).
Proof.
  intros Hs Hnull Hcall Hbad.
  destruct (Publisher_ctor_runs pub_name address w)
    as (st0 & st1 & out1 & s' & p' & rest & E & Ecall & Hcases).
  rewrite Ecall in Hcall. cbn [fst] in Hcall. injection Hcall as -> ->.
  rewrite E. cbn [state_of fst snd].
  destruct Hcases as [(_ & -> & _) | (Hgood & _)]; [ | contradiction ].
  apply publish_null_connection; cbn; assumption.
Qed.

(** X10.  A publisher whose connection was accepted publishes on it: when
    the library accepts the connection and stores an id that is not null, a
    later [publish] returns a boolean, calls the library, and attaches its
    writer group to that very connection. *)
Theorem accepted_connection_then_publish (pub_name address : string)
    (datas : list PublishedDataSet) (d : spec_float) (w : world)
    (id : UA_NodeId) :
  _server (this w) <> nullptr ->
  (UA_Server_addPubSubConnection lib
     (UA_ServerConfig_addPubSubTransportLayer lib (server w)
        (_server (this w))).2
     (_server (this w)) (connect_config std_hash pub_name address)).1
  = (UA_STATUSCODE_GOOD, Some id) ->
  UA_NodeId_isNull lib id = false ->
  (exists b,
     result_of (publish' datas d
                  (state_of (Publisher_ctor lib std_hash pub_name address w)))
     = Ret b)
  /\ calls_of (trace_of (publish' datas d
                           (state_of (Publisher_ctor lib std_hash pub_name
                                        address w))))
     <> []
  /\ (forall conn cfg st,
        In (Called (call_addWriterGroup conn cfg) st)
           (trace_of (publish' datas d
                        (state_of (Publisher_ctor lib std_hash pub_name
                                     address w)))) ->
        conn = id /\ cfg = wg_config std_hash pub_name d).
Proof.
  intros Hs Hcall Hid.
  destruct (Publisher_ctor_runs pub_name address w)
    as (st0 & st1 & out1 & s' & p' & rest & E & Ecall & Hcases).
  rewrite Ecall in Hcall. cbn [fst] in Hcall. injection Hcall as -> ->.
  rewrite E. cbn [state_of fst snd].
  destruct Hcases as [(Hbad & _) | (_ & st2 & out2 & -> & _)];
    [ contradiction | ].
  set (w1 := {| this := set_pds_id out2
                          (set_connection_id (Some id)
                             (set_name pub_name (this w)));
                server := s' |}).
  assert (Hs1 : _server (this w1) <> nullptr) by exact Hs.
  assert (Hc1 : UA_NodeId_isNull lib (_connection_id (this w1)) = false)
    by exact Hid.
  destruct (publish_runs datas d w1 Hs1 Hc1) as (b & p2 & s2 & t & E2 & Hrun).
  rewrite E2. cbn [result_of trace_of fst snd].
  split; [ exists b; reflexivity | split ].
  - destruct Hrun; intros Hnil; apply (f_equal (@length _)) in Hnil;
      rewrite calls_of_app, length_app in Hnil; cbn in Hnil; lia.
  - destruct Hrun as [done pds0 rest0 st3 Hd Hst | st3 out Hst | st3 out Hst
                     | st3 out out3 Hst | out out3];
      intros conn cfg st Hin; in_run_tail Hin; injection Hin as -> -> _;
      split; reflexivity.
Qed.

End PublishRunsTheory.

(** * Further properties of the variable container *)

Lemma narrow_size_t_to_UInt32 (n : Z) :
  to_UInt32 (to_size_t n) = n mod 2 ^ 32.
Proof.
  unfold to_UInt32, to_size_t.
  apply Z.mod_mod_divide.
  exists (2 ^ 32). reflexivity.
Qed.

Lemma any_cast_Ret_iff (T : cpp_type) (a : any) (x : cpp_value T) :
  any_cast T a = Ret x <-> a = any_holds T x.
Proof.
  split.
  - destruct a as [ | T' v ]; cbn; [ discriminate | ].
    destruct (decide (T' = T)) as [e | ne]; [ | discriminate ].
    revert x. destruct e. cbn. intros x H. injection H as ->. reflexivity.
  - intros ->. apply any_cast_holds.
Qed.

Lemma any_cast_Raise (T : cpp_type) (a : any) (e : exception) :
  any_cast T a = Raise e -> e = bad_any_cast.
Proof.
  destruct a as [ | T' v ]; cbn.
  - intros H. injection H as <-. reflexivity.
  - destruct (decide (T' = T)); [ discriminate | ].
    intros H. injection H as <-. reflexivity.
Qed.

Section VariableFurther.

Context {DataType : Type}.
Variable DataType_default : DataType.
Variable DataType_of_typeid : cpp_type -> DataType.

Local Abbreviation Variable_scalar' := (Variable_scalar DataType_default DataType_of_typeid).
Local Abbreviation Variable_vector' := (Variable_vector DataType_default DataType_of_typeid).
Local Abbreviation VariableType_scalar' := (VariableType_scalar DataType_of_typeid).
Local Abbreviation VariableType_vector' := (VariableType_vector DataType_of_typeid).

(** X11.  [cast<Tp>] returns a value exactly when the stored value is of
    type [Tp], and then it is the stored value; in every other case,
    whether another type is stored or nothing at all, it throws
    [std::bad_any_cast] and nothing else.  The conversion operator behaves
    as [cast], and [VariableType::cast] likewise. *)
Theorem cast_iff_stored_type (T : cpp_type) (x : cpp_value T)
    (v : rm_Variable DataType) (vt : VariableType DataType) :
  (Variable_cast T v = Ret x <-> Variable_data v = any_holds T x)
  /\ ((forall y, Variable_data v <> any_holds T y) ->
      Variable_cast T v = Raise bad_any_cast)
  /\ Variable_cast T (Variable_default DataType_default) = Raise bad_any_cast
  /\ Variable_operator_Tp T v = Variable_cast T v
  /\ Variable_operator_vector T v = Variable_cast (Vector T) v
  /\ (VariableType_cast T vt = Ret x <-> VariableType_data vt = any_holds T x)
  /\ ((forall y, VariableType_data vt <> any_holds T y) ->
      VariableType_cast T vt = Raise bad_any_cast).
Proof.
  assert (Hthrow : forall a, (forall y, a <> any_holds T y) ->
                             any_cast T a = Raise bad_any_cast).
  { intros a Hno. destruct (any_cast T a) as [y | e] eqn:E.
    - apply any_cast_Ret_iff in E. destruct (Hno y E).
    - apply any_cast_Raise in E. subst e. reflexivity. }
  split; [ apply any_cast_Ret_iff | ].
  split; [ apply Hthrow | ].
  split; [ reflexivity | ].
  split; [ reflexivity | ].
  split; [ reflexivity | ].
  split; [ apply any_cast_Ret_iff | apply Hthrow ].
Qed.

(** X12.  A variable made from a variable type that was made from a value
    is the variable made from the value directly, except for [type()]: the
    two agree on every other member (name space, the three names, access
    level, data, type tag and size), so [cast] gives the value back from
    both; [type()] is the variable type for the first and the default
    variable type for the second. *)
Theorem from_type_agrees (DecayT Tp : cpp_type) (v : cpp_value DecayT)
    (arr : list (cpp_value Tp)) :
  (Variable_from (VariableType_scalar' DecayT v)
   = {| ns := ns (Variable_scalar' DecayT v);
        browse_name := browse_name (Variable_scalar' DecayT v);
        display_name := display_name (Variable_scalar' DecayT v);
        description := description (Variable_scalar' DecayT v);
        access_level := access_level (Variable_scalar' DecayT v);
        _type := VariableType_scalar' DecayT v;
        _value := Variable_data (Variable_scalar' DecayT v);
        _data_type := Variable_getDataType (Variable_scalar' DecayT v);
        _size := Variable_size (Variable_scalar' DecayT v) |}
   /\ Variable_cast DecayT (Variable_from (VariableType_scalar' DecayT v))
      = Ret v)
  /\
  (Variable_from (VariableType_vector' Tp arr)
   = {| ns := ns (Variable_vector' Tp arr);
        browse_name := browse_name (Variable_vector' Tp arr);
        display_name := display_name (Variable_vector' Tp arr);
        description := description (Variable_vector' Tp arr);
        access_level := access_level (Variable_vector' Tp arr);
        _type := VariableType_vector' Tp arr;
        _value := Variable_data (Variable_vector' Tp arr);
        _data_type := Variable_getDataType (Variable_vector' Tp arr);
        _size := Variable_size (Variable_vector' Tp arr) |}
   /\ Variable_cast (Vector Tp) (Variable_from (VariableType_vector' Tp arr))
      = Ret arr)
  /\
  (Variable_type (Variable_from (VariableType_scalar' DecayT v))
   = VariableType_scalar' DecayT v
   /\ Variable_type (Variable_scalar' DecayT v)
      = VariableType_default DataType_default
   /\ Variable_from (VariableType_scalar' DecayT v) <> Variable_scalar' DecayT v).
Proof.
  repeat split; try reflexivity.
  - apply any_cast_holds.
  - apply (any_cast_holds (Vector Tp)).
  - intros H. apply (f_equal (fun var => vt_size (_type var))) in H.
    cbn in H. discriminate H.
Qed.

(** X13.  The size of a variable or variable type made from a vector is the
    length of the vector modulo 2^32, always below 2^32, and [empty()] holds
    exactly when 2^32 divides the length. *)
Theorem vector_size_modulo (Tp : cpp_type) (arr : list (cpp_value Tp)) :
  Variable_size (Variable_vector' Tp arr) = Z.of_nat (length arr) mod 2 ^ 32
  /\ VariableType_size (VariableType_vector' Tp arr)
     = Z.of_nat (length arr) mod 2 ^ 32
  /\ 0 <= Variable_size (Variable_vector' Tp arr) < 2 ^ 32
  /\ (Variable_empty (Variable_vector' Tp arr) = true
      <-> (2 ^ 32 | Z.of_nat (length arr)))
  /\ (VariableType_empty (VariableType_vector' Tp arr) = true
      <-> (2 ^ 32 | Z.of_nat (length arr))).
Proof.
  assert (E : to_UInt32 (vector_size arr) = Z.of_nat (length arr) mod 2 ^ 32)
    by apply narrow_size_t_to_UInt32.
  assert (D : Z.of_nat (length arr) mod 2 ^ 32 = 0
              <-> (2 ^ 32 | Z.of_nat (length arr)))
    by (apply Z.mod_divide; lia).
  unfold Variable_size, Variable_empty, Variable_vector, VariableType_size,
    VariableType_empty, VariableType_vector.
  cbn [_size vt_size]. rewrite E.
  split; [ reflexivity | split; [ reflexivity | split ] ].
  - apply Z.mod_pos_bound. lia.
  - split; (rewrite Z.eqb_eq; exact D).
Qed.

End VariableFurther.

(** * Names handed to the library *)

Lemma c_str_no_nul (s : string) : has_nul (c_str s) = false.
Proof.
  induction s as [ | c rest IH ]; [ reflexivity | ].
  cbn. destruct (Ascii.eqb c Ascii.zero) eqn:E; [ reflexivity | ].
  cbn. rewrite E. exact IH.
Qed.

Lemma c_str_id (s : string) : has_nul s = false -> c_str s = s.
Proof.
  induction s as [ | c rest IH ]; [ reflexivity | ].
  cbn. destruct (Ascii.eqb c Ascii.zero); [ discriminate | ].
  cbn. intros H. rewrite (IH H). reflexivity.
Qed.

Lemma c_str_append (a b : string) :
  c_str (a +:+ b) = if has_nul a then c_str a else a +:+ c_str b.
Proof.
  induction a as [ | c rest IH ]; [ reflexivity | ].
  change (String c rest +:+ b) with (String c (rest +:+ b)).
  cbn [c_str has_nul].
  destruct (Ascii.eqb c Ascii.zero); [ reflexivity | ].
  cbn [orb]. rewrite IH. destruct (has_nul rest); reflexivity.
Qed.

(** X14.  The names the publisher hands to the library never hold a NUL.
    For a publisher name without NUL they are the name followed by
    [Connection], [PublishedDataSet], [WriterGroup] and [DataSetWriter];
    for a name with a NUL all four are the part of the name before its
    first NUL, the suffix being cut off with the rest. *)
Theorem config_names (std_hash : string -> Z) (KEY_FRAME_COUNT : Z)
    (name address : string) (d : spec_float) :
  (has_nul (conn_name (connect_config std_hash name address)) = false
   /\ has_nul (pds_name (pds_config name)) = false
   /\ has_nul (wg_name (wg_config std_hash name d)) = false
   /\ has_nul (dsw_name (dsw_config std_hash KEY_FRAME_COUNT name)) = false)
  /\
  (has_nul name = false ->
   conn_name (connect_config std_hash name address) = name +:+ "Connection"
   /\ pds_name (pds_config name) = name +:+ "PublishedDataSet"
   /\ wg_name (wg_config std_hash name d) = name +:+ "WriterGroup"
   /\ dsw_name (dsw_config std_hash KEY_FRAME_COUNT name)
      = name +:+ "DataSetWriter")
  /\
  (has_nul name = true ->
   conn_name (connect_config std_hash name address) = c_str name
   /\ pds_name (pds_config name) = c_str name
   /\ wg_name (wg_config std_hash name d) = c_str name
   /\ dsw_name (dsw_config std_hash KEY_FRAME_COUNT name) = c_str name).
Proof.
  unfold connect_config, pds_config, wg_config, dsw_config, UA_String_fromChars.
  cbn [conn_name pds_name wg_name dsw_name].
  split; [ repeat split; apply c_str_no_nul | ].
  split; intros H; rewrite !c_str_append, H; repeat split.
Qed.

(** * Properties of the client view *)

(** X15.  Path search through a view is path search through the client:
    the view a [Client] converts to holds the client's pointer, [find] on
    it builds the tuple [Client::find] builds, and the client is [ok()]
    exactly when that view does not hold [nullptr]. *)
Theorem Client_view_find {DataChangeNotificationCallback
    EventNotificationCallback : Type}
    (c : Client DataChangeNotificationCallback EventNotificationCallback)
    (browse_name : string) (ns : Z) :
  ClientView_find (Client_operator_ClientView c) browse_name ns
  = Client_find c browse_name ns
  /\ ClientView_get (Client_operator_ClientView c) = _client c
  /\ (Client_ok c = true
      <-> ClientView_get (Client_operator_ClientView c)
          <> ClientView_get ClientView_default)
  /\ ClientView_assign ClientView_default (_client c)
     = Client_operator_ClientView c.
Proof.
  repeat split.
  - unfold Client_ok. intros H E. cbn in E. rewrite E in H. discriminate H.
  - unfold Client_ok. intros H. cbn in H.
    apply negb_true_iff, Z.eqb_neq. exact H.
Qed.

(** * The further properties on concrete runs *)

(** X2 on the run in which the second field is refused with status 7. *)
Lemma publish_logs_once_witness :
  _server (this (sample_world ready_publisher [0; 7])) <> nullptr
  /\ UA_NodeId_isNull scripted_lib
       (_connection_id (this (sample_world ready_publisher [0; 7]))) = false
  /\ exists b : bool,
       result_of (publish scripted_lib sample_hash 10 sample_datas
                    sample_duration (sample_world ready_publisher [0; 7]))
       = Ret b
       /\ (b = true <->
           logs_of (trace_of (publish scripted_lib sample_hash 10 sample_datas
                                sample_duration
                                (sample_world ready_publisher [0; 7]))) = [])
       /\ (b = false ->
           exists pre c st l,
             trace_of (publish scripted_lib sample_hash 10 sample_datas
                         sample_duration (sample_world ready_publisher [0; 7]))
             = pre ++ [Called c st; Logged l]
             /\ st <> UA_STATUSCODE_GOOD
             /\ log_status l = st
             /\ all_calls_good pre
             /\ logs_of pre = []).
Proof.
  assert (Hs : _server (this (sample_world ready_publisher [0; 7])) <> nullptr)
    by (vm_compute; discriminate).
  assert (Hc : UA_NodeId_isNull scripted_lib
                 (_connection_id (this (sample_world ready_publisher [0; 7])))
               = false) by reflexivity.
  split; [ exact Hs | split; [ exact Hc | ] ].
  exact (publish_logs_once scripted_lib sample_hash 10 sample_datas
           sample_duration (sample_world ready_publisher [0; 7]) Hs Hc).
Defined.

(** X4 on an empty list of data sets: the first call adds the writer
    group. *)
Lemma publish_first_call_witness :
  _server (this (sample_world ready_publisher [])) <> nullptr
  /\ UA_NodeId_isNull scripted_lib
       (_connection_id (this (sample_world ready_publisher []))) = false
  /\ exists st,
       hd_error (trace_of (publish scripted_lib sample_hash 10 []
                             sample_duration (sample_world ready_publisher [])))
       = Some (Called (call_addWriterGroup
                         (_connection_id (this (sample_world ready_publisher [])))
                         (wg_config sample_hash
                            (_name (this (sample_world ready_publisher [])))
                            sample_duration)) st).
Proof.
  assert (Hs : _server (this (sample_world ready_publisher [])) <> nullptr)
    by (vm_compute; discriminate).
  assert (Hc : UA_NodeId_isNull scripted_lib
                 (_connection_id (this (sample_world ready_publisher [])))
               = false) by reflexivity.
  split; [ exact Hs | split; [ exact Hc | ] ].
  exact (publish_first_call scripted_lib sample_hash 10 []
           sample_duration (sample_world ready_publisher []) Hs Hc).
Defined.

(** X9 on a library that accepts the transport layer and refuses the
    connection with status 7. *)
Lemma refused_connection_then_publish_witness :
  publish scripted_lib sample_hash 10 sample_datas sample_duration
    (state_of (Publisher_ctor scripted_lib sample_hash "pub"
                 "opc.udp://224.0.0.22:4840"
                 (sample_world unconnected_publisher [0; 7])))
  = (Ret false,
     state_of (Publisher_ctor scripted_lib sample_hash "pub"
                 "opc.udp://224.0.0.22:4840"
                 (sample_world unconnected_publisher [0; 7])),
     []).
Proof.
  apply (refused_connection_then_publish scripted_lib sample_hash 10 "pub"
           "opc.udp://224.0.0.22:4840" sample_datas sample_duration
           (sample_world unconnected_publisher [0; 7]) 7).
  - vm_compute. discriminate.
  - reflexivity.
  - reflexivity.
  - discriminate.
Defined.

(** X10 on a library that accepts everything: the connection gets the id 3
    of name space 1. *)
Lemma accepted_connection_then_publish_witness :
  (exists b,
     result_of (publish scripted_lib sample_hash 10 sample_datas sample_duration
                  (state_of (Publisher_ctor scripted_lib sample_hash "pub"
                               "opc.udp://224.0.0.22:4840"
                               (sample_world unconnected_publisher []))))
     = Ret b)
  /\ calls_of
       (trace_of (publish scripted_lib sample_hash 10 sample_datas
                    sample_duration
                    (state_of (Publisher_ctor scripted_lib sample_hash "pub"
                                 "opc.udp://224.0.0.22:4840"
                                 (sample_world unconnected_publisher [])))))
     <> []
  /\ (forall conn cfg st,
        In (Called (call_addWriterGroup conn cfg) st)
           (trace_of (publish scripted_lib sample_hash 10 sample_datas
                        sample_duration
                        (state_of (Publisher_ctor scripted_lib sample_hash "pub"
                                     "opc.udp://224.0.0.22:4840"
                                     (sample_world unconnected_publisher []))))) ->
        conn = mkNodeId 1 (numeric 3)
        /\ cfg = wg_config sample_hash "pub" sample_duration).
Proof.
  apply (accepted_connection_then_publish scripted_lib sample_hash 10 "pub"
           "opc.udp://224.0.0.22:4840" sample_datas sample_duration
           (sample_world unconnected_publisher []) (mkNodeId 1 (numeric 3))).
  - vm_compute. discriminate.
  - reflexivity.
  - reflexivity.
Defined.

(** * The trace of the publisher is what the library did *)

Lemma called_app (t1 t2 : list event) :
  called (t1 ++ t2) = called t1 ++ called t2.
Proof. unfold called. apply omap_app. Qed.

Lemma called_accepted_fields (p : Publisher) (datas : list PublishedDataSet) :
  called (accepted_fields p datas)
  = map (fun pds => (field_call p pds, UA_STATUSCODE_GOOD)) datas.
Proof.
  induction datas as [ | pds rest IH ]; [ reflexivity | ].
  cbn. f_equal. exact IH.
Qed.

Lemma app_eq_app_notin {A : Type} (l tail pre post : list A) (e : A) :
  ~ In e l ->
  l ++ tail = pre ++ e :: post ->
  exists pre2, pre = l ++ pre2 /\ tail = pre2 ++ e :: post.
Proof.
  revert pre. induction l as [ | x l IH ]; intros pre Hn H.
  - exists pre. split; [ reflexivity | exact H ].
  - destruct pre as [ | y pre ]; cbn in H; injection H as Hx Hrest.
    + exfalso. apply Hn. left. exact Hx.
    + subst y. destruct (IH pre) as (pre2 & -> & ->).
      * intros Hin. apply Hn. right. exact Hin.
      * exact Hrest.
      * exists pre2. split; reflexivity.
Qed.

Section PublishAnswers.

Context {S : Type}.
Variable lib : UA_Library S.
Variable std_hash : string -> Z.
Variable KEY_FRAME_COUNT : Z.

Local Abbreviation publish' := (publish lib std_hash KEY_FRAME_COUNT).
Local Abbreviation publish_run' := (publish_run std_hash KEY_FRAME_COUNT).
Local Abbreviation expected' := (expected_calls std_hash KEY_FRAME_COUNT).
Local Abbreviation faithful' := (faithful lib).

Lemma answered_by_app (p : UA_Server_ptr) (s s1 s2 : S) (t1 t2 : list event) :
  answered_by lib p s t1 s1 ->
  answered_by lib p s1 t2 s2 ->
  answered_by lib p s (t1 ++ t2) s2.
Proof.
  revert s. induction t1 as [ | e t1 IH ]; intros s H1 H2.
  - cbn in H1. subst s1. exact H2.
  - destruct e as [c st | l]; cbn in *.
    + destruct H1 as [Hst H1]. split; [ exact Hst | ]. apply IH; assumption.
    + apply IH; assumption.
Qed.

Lemma faithful_ret {A : Type} (a : A) : faithful' (ret a).
Proof. intros w. split; reflexivity. Qed.

Lemma faithful_get_this : faithful' get_this.
Proof. intros w. split; reflexivity. Qed.

Lemma faithful_log (l : log_line) : faithful' (UA_LOG_ERROR l).
Proof. intros w. split; reflexivity. Qed.

Lemma faithful_error {A : Type} (code : rmvl_code) (msg : string) :
  faithful' (RMVL_Error (A:=A) code msg).
Proof. intros w. split; reflexivity. Qed.

Lemma faithful_bind {A B : Type} (m : M A) (k : A -> M B) :
  faithful' m -> (forall a, faithful' (k a)) -> faithful' (bind m k).
Proof.
  intros Hm Hk w. specialize (Hm w). unfold bind.
  destruct (m w) as [[r w1] t1]. cbn [state_of trace_of fst snd] in Hm.
  destruct Hm as [Hp Ht].
  destruct r as [a | e]; [ | split; assumption ].
  specialize (Hk a w1). destruct (k a w1) as [[r2 w2] t2].
  cbn [state_of trace_of fst snd] in *. destruct Hk as [Hp2 Ht2].
  split; [ congruence | ].
  rewrite Hp in Ht2. apply (answered_by_app _ _ _ _ _ _ Ht Ht2).
Qed.

Lemma faithful_invoke (f : S -> UA_Server_ptr -> ua_answer * S)
    (set : option UA_NodeId -> Publisher -> Publisher) (c : ua_call) :
  (forall out p, _server (set out p) = _server p) ->
  (forall s p, answer lib s p c = f s p) ->
  faithful' (invoke f set c).
Proof.
  intros Hset Hf w. unfold invoke. specialize (Hf (server w) (_server (this w))).
  destruct (f (server w) (_server (this w))) as [[st out] s'].
  cbn [state_of trace_of fst snd this server answered_by].
  rewrite Hf. split; [ apply Hset | ]. split; reflexivity.
Qed.

Lemma faithful_invoke_ (f : S -> UA_Server_ptr -> UA_StatusCode * S)
    (c : ua_call) :
  (forall s p, answer lib s p c = (((f s p).1, None), (f s p).2)) ->
  faithful' (invoke_ f c).
Proof.
  intros Hf w. unfold invoke_. specialize (Hf (server w) (_server (this w))).
  destruct (f (server w) (_server (this w))) as [st s'].
  cbn [state_of trace_of fst snd this server answered_by].
  rewrite Hf. split; [ reflexivity | ]. split; reflexivity.
Qed.

Lemma faithful_add_fields (datas : list PublishedDataSet) :
  faithful' (add_fields lib datas).
Proof.
  induction datas as [ | pds rest IH ]; [ apply faithful_ret | ].
  cbn [add_fields].
  apply faithful_bind; [ apply faithful_get_this | intros self ].
  apply faithful_bind.
  - apply faithful_invoke; reflexivity.
  - intros result. destruct (negb (result =? UA_STATUSCODE_GOOD)).
    + apply faithful_bind; [ apply faithful_log | intros _; apply faithful_ret ].
    + exact IH.
Qed.

(** Every library call in the trace of [publish] was made, in this order,
    and answered by the library with the status the trace records. *)
Lemma faithful_publish (datas : list PublishedDataSet) (d : spec_float) :
  faithful' (publish' datas d).
Proof.
  unfold publish.
  apply faithful_bind; [ apply faithful_get_this | intros self ].
  apply faithful_bind.
  { destruct (_server self =? nullptr);
      [ apply faithful_error | apply faithful_ret ]. }
  intros _.
  destruct (UA_NodeId_isNull lib (_connection_id self));
    [ apply faithful_ret | ].
  apply faithful_bind; [ apply faithful_add_fields | intros fields_added ].
  destruct (negb fields_added); [ apply faithful_ret | ].
  apply faithful_bind; [ apply faithful_invoke; reflexivity | intros st1 ].
  destruct (negb (st1 =? UA_STATUSCODE_GOOD)).
  { apply faithful_bind; [ apply faithful_log | intros _; apply faithful_ret ]. }
  apply faithful_bind; [ apply faithful_get_this | intros self2 ].
  apply faithful_bind.
  { apply faithful_invoke_. intros s p. cbn [answer].
    destruct (UA_Server_setWriterGroupOperational lib s p (_wg_id self2));
      reflexivity. }
  intros st2.
  destruct (negb (st2 =? UA_STATUSCODE_GOOD)).
  { apply faithful_bind; [ apply faithful_log | intros _; apply faithful_ret ]. }
  apply faithful_bind; [ apply faithful_invoke; reflexivity | intros st3 ].
  destruct (negb (st3 =? UA_STATUSCODE_GOOD)).
  { apply faithful_bind; [ apply faithful_log | intros _; apply faithful_ret ]. }
  apply faithful_ret.
Qed.

(** What a run says about its calls. *)
Lemma run_good_iff (p p' : Publisher) (datas : list PublishedDataSet)
    (d : spec_float) (b : bool) (t : list event) :
  publish_run' p datas d b p' t -> (b = true <-> all_calls_good t).
Proof.
  assert (Hbad : forall pre c st post,
             st <> UA_STATUSCODE_GOOD ->
             ~ all_calls_good (pre ++ Called c st :: post)).
  { intros pre c st post Hst H. apply all_calls_good_app in H.
    destruct H as [_ H]. inversion H as [ | ? ? Hc _ ]; subst.
    apply Hst, Hc. }
  intros Hrun.
  destruct Hrun as [done pds rest st Hd Hst | st out Hst | st out Hst
                   | st out out3 Hst | out out3].
  - split; [ discriminate | ]. intros H. destruct (Hbad _ _ _ _ Hst H).
  - split; [ discriminate | ]. intros H. destruct (Hbad _ _ _ _ Hst H).
  - split; [ discriminate | ]. intros H.
    change (accepted_fields p datas ++ ?a :: ?rest)
      with (accepted_fields p datas ++ [a] ++ rest) in H.
    rewrite app_assoc in H. destruct (Hbad _ _ _ _ Hst H).
  - split; [ discriminate | ]. intros H.
    change (accepted_fields p datas ++ ?a :: ?b :: ?rest)
      with (accepted_fields p datas ++ [a; b] ++ rest) in H.
    rewrite app_assoc in H. destruct (Hbad _ _ _ _ Hst H).
  - split; [ intros _ | reflexivity ].
    apply all_calls_good_app. split;
      [ apply all_calls_good_accepted_fields | repeat constructor ].
Qed.

Lemma run_prefix (p p' : Publisher) (datas : list PublishedDataSet)
    (d : spec_float) (b : bool) (t : list event) :
  publish_run' p datas d b p' t ->
  calls_of t `prefix_of` expected' p datas d (_wg_id p')
  /\ (b = true -> calls_of t = expected' p datas d (_wg_id p')).
Proof.
  intros Hrun. unfold expected_calls.
  destruct Hrun as [done pds rest st Hd Hst | st out Hst | st out Hst
                   | st out out3 Hst | out out3];
    rewrite calls_of_app, calls_of_accepted_fields; cbn.
  - split; [ | discriminate ]. subst datas.
    rewrite map_app, <- app_assoc. apply prefix_app. cbn.
    apply prefix_cons, prefix_nil.
  - split; [ | discriminate ]. apply prefix_app, prefix_cons, prefix_nil.
  - split; [ | discriminate ]. apply prefix_app.
    do 2 apply prefix_cons. apply prefix_nil.
  - split; [ | discriminate ]. apply prefix_app. reflexivity.
  - split; [ reflexivity | reflexivity ].
Qed.

Lemma run_stops_at_refusal (p p' : Publisher) (datas : list PublishedDataSet)
    (d : spec_float) (b : bool) (t : list event) :
  publish_run' p datas d b p' t ->
  exists pre c st,
    called t = pre ++ [(c, st)]
    /\ Forall (fun x => x.2 = UA_STATUSCODE_GOOD) pre
    /\ ((st = UA_STATUSCODE_GOOD /\ b = true)
        \/ (st <> UA_STATUSCODE_GOOD /\ b = false)).
Proof.
  assert (Hacc : forall l,
             Forall (fun x : ua_call * UA_StatusCode => x.2 = UA_STATUSCODE_GOOD)
               (map (fun pds => (field_call p pds, UA_STATUSCODE_GOOD)) l)).
  { intros l. induction l; constructor; [ reflexivity | assumption ]. }
  intros Hrun.
  destruct Hrun as [done pds rest st Hd Hst | st out Hst | st out Hst
                   | st out out3 Hst | out out3];
    rewrite called_app, called_accepted_fields; cbn.
  - eexists. eexists. exists st. split; [ reflexivity | ].
    split; [ apply Hacc | right; split; [ exact Hst | reflexivity ] ].
  - eexists. eexists. exists st. split; [ reflexivity | ].
    split; [ apply Hacc | right; split; [ exact Hst | reflexivity ] ].
  - exists (map (fun pds => (field_call p pds, UA_STATUSCODE_GOOD)) datas
            ++ [(call_addWriterGroup (_connection_id p)
                   (wg_config std_hash (_name p) d), UA_STATUSCODE_GOOD)]).
    eexists. exists st. split; [ rewrite <- app_assoc; reflexivity | ].
    split; [ | right; split; [ exact Hst | reflexivity ] ].
    apply Forall_app. split; [ apply Hacc | repeat constructor ].
  - exists (map (fun pds => (field_call p pds, UA_STATUSCODE_GOOD)) datas
            ++ [(call_addWriterGroup (_connection_id p)
                   (wg_config std_hash (_name p) d), UA_STATUSCODE_GOOD);
                (call_setWriterGroupOperational (store out (_wg_id p)),
                 UA_STATUSCODE_GOOD)]).
    eexists. exists st. split; [ rewrite <- app_assoc; reflexivity | ].
    split; [ | right; split; [ exact Hst | reflexivity ] ].
    apply Forall_app. split; [ apply Hacc | repeat constructor ].
  - exists (map (fun pds => (field_call p pds, UA_STATUSCODE_GOOD)) datas
            ++ [(call_addWriterGroup (_connection_id p)
                   (wg_config std_hash (_name p) d), UA_STATUSCODE_GOOD);
                (call_setWriterGroupOperational (store out (_wg_id p)),
                 UA_STATUSCODE_GOOD)]).
    eexists. exists UA_STATUSCODE_GOOD.
    split; [ rewrite <- app_assoc; reflexivity | ].
    split; [ | left; split; reflexivity ].
    apply Forall_app. split; [ apply Hacc | repeat constructor ].
Qed.

(** C1.  [publish] turns the status codes of the library into a boolean.
    The library calls of its trace are calls it made, answered by the
    library with the recorded statuses.  It returns [true] if and only if
    it made every one of its calls (one [addDataSetField] per element of
    [datas], then [addWriterGroup], [setWriterGroupOperational] on the
    group just added and [addDataSetWriter]) and each returned the good
    status code; if any call it made returned another status, it returns
    [false].  Past its preconditions it returns a boolean that is [true]
    exactly when every call it made was good. *)
Theorem publish_true_iff_all_good (datas : list PublishedDataSet)
    (d : spec_float) (w : world) :
  answered_by lib (_server (this w)) (server w)
    (trace_of (publish' datas d w)) (server (state_of (publish' datas d w)))
  /\
  (result_of (publish' datas d w) = Ret true
   <-> calls_of (trace_of (publish' datas d w))
       = expected' (this w) datas d
           (_wg_id (this (state_of (publish' datas d w))))
       /\ all_calls_good (trace_of (publish' datas d w)))
  /\
  (~ all_calls_good (trace_of (publish' datas d w)) ->
   result_of (publish' datas d w) = Ret false)
  /\
  (_server (this w) <> nullptr ->
   UA_NodeId_isNull lib (_connection_id (this w)) = false ->
   exists b : bool,
     result_of (publish' datas d w) = Ret b
     /\ (b = true <-> all_calls_good (trace_of (publish' datas d w)))).
Proof.
  split; [ apply (faithful_publish datas d w) | ].
  assert (Hne : forall wg, [] <> expected' (this w) datas d wg).
  { intros wg H. apply (f_equal (@length _)) in H.
    unfold expected_calls in H. rewrite length_app in H. cbn in H. lia. }
  destruct (Z.eq_dec (_server (this w)) nullptr) as [Hs | Hs].
  { rewrite (publish_null_server lib std_hash KEY_FRAME_COUNT datas d w Hs).
    cbn [result_of state_of trace_of fst snd this].
    split; [ split | split ].
    - discriminate.
    - intros [H _]. destruct (Hne _ H).
    - intros H. destruct H. constructor.
    - intros H. contradiction. }
  destruct (UA_NodeId_isNull lib (_connection_id (this w))) eqn:Hc.
  { rewrite (publish_null_connection lib std_hash KEY_FRAME_COUNT datas d w
               Hs Hc).
    cbn [result_of state_of trace_of fst snd this].
    split; [ split | split ].
    - discriminate.
    - intros [H _]. destruct (Hne _ H).
    - reflexivity.
    - discriminate. }
  destruct (publish_runs lib std_hash KEY_FRAME_COUNT datas d w Hs Hc)
    as (b & p' & s' & t & E & Hrun).
  rewrite E. cbn [result_of state_of trace_of fst snd this].
  pose proof (run_good_iff _ _ _ _ _ _ Hrun) as Hgood.
  destruct (run_prefix _ _ _ _ _ _ Hrun) as [_ Hall].
  split; [ split | split ].
  - intros Hb. injection Hb as ->. split;
      [ apply Hall; reflexivity | apply Hgood; reflexivity ].
  - intros [_ Hg]. f_equal. apply Hgood, Hg.
  - intros Hbad. destruct b; [ | reflexivity ].
    destruct Hbad. apply Hgood. reflexivity.
  - intros _ _. exists b. split; [ reflexivity | exact Hgood ].
Qed.

(** C2 (as amended).  [publish] is a sequence of calls to the PubSub entry
    points of the server, not a single one.  Past its preconditions the
    calls it makes are, in order, one [addDataSetField] per element of
    [datas], then [addWriterGroup], [setWriterGroupOperational] and
    [addDataSetWriter], cut right after the first call that the library
    did not answer with the good status: there is a last call, every call
    before it was answered with the good status, and either the last one
    was too, all [length datas + 3] calls were made and [publish] returns
    [true], or it was not and [publish] returns [false]. *)
Theorem publish_call_sequence (datas : list PublishedDataSet)
    (d : spec_float) (w : world) :
  _server (this w) <> nullptr ->
  UA_NodeId_isNull lib (_connection_id (this w)) = false ->
  answered_by lib (_server (this w)) (server w)
    (trace_of (publish' datas d w)) (server (state_of (publish' datas d w)))
  /\ calls_of (trace_of (publish' datas d w))
       `prefix_of` expected' (this w) datas d
                     (_wg_id (this (state_of (publish' datas d w))))
  /\ (exists pre c st,
        called (trace_of (publish' datas d w)) = pre ++ [(c, st)]
        /\ Forall (fun x => x.2 = UA_STATUSCODE_GOOD) pre
        /\ ((st = UA_STATUSCODE_GOOD
             /\ result_of (publish' datas d w) = Ret true
             /\ calls_of (trace_of (publish' datas d w))
                = expected' (this w) datas d
                    (_wg_id (this (state_of (publish' datas d w))))
             /\ length (calls_of (trace_of (publish' datas d w)))
                = (length datas + 3)%nat)
            \/ (st <> UA_STATUSCODE_GOOD
                /\ result_of (publish' datas d w) = Ret false)))
  /\ (length (calls_of (trace_of (publish' datas d w)))
      <= length datas + 3)%nat.
Proof.
  intros Hs Hc.
  split; [ apply (faithful_publish datas d w) | ].
  destruct (publish_runs lib std_hash KEY_FRAME_COUNT datas d w Hs Hc)
    as (b & p' & s' & t & E & Hrun).
  rewrite E. cbn [result_of state_of trace_of fst snd this].
  destruct (run_prefix _ _ _ _ _ _ Hrun) as [Hpre Hall].
  assert (Hlen : forall wg,
             length (expected' (this w) datas d wg) = (length datas + 3)%nat).
  { intros wg. unfold expected_calls. rewrite length_app, length_map.
    reflexivity. }
  split; [ exact Hpre | split ].
  - destruct (run_stops_at_refusal _ _ _ _ _ _ Hrun)
      as (pre & c & st & Hcalled & Hgood & Hlast).
    exists pre, c, st. split; [ exact Hcalled | split; [ exact Hgood | ] ].
    destruct Hlast as [[-> ->] | [Hbad ->]].
    + left. split; [ reflexivity | split; [ reflexivity | ] ].
      rewrite (Hall eq_refl). split; [ reflexivity | apply Hlen ].
    + right. split; [ exact Hbad | reflexivity ].
  - apply prefix_length in Hpre. rewrite Hlen in Hpre. exact Hpre.
Qed.

Ltac tail_inv H pre2 :=
  destruct pre2 as [ | ? pre2 ]; cbn [app] in H;
  [ try discriminate H
  | first [ discriminate H
          | let Hh := fresh "Hh" in injection H as Hh H; tail_inv H pre2 ] ].

Lemma not_in_accepted (p : Publisher) (datas : list PublishedDataSet)
    (c : ua_call) (st : UA_StatusCode) :
  (forall pds, c <> field_call p pds) ->
  ~ In (Called c st) (accepted_fields p datas).
Proof.
  intros Hc H. apply In_accepted_fields in H.
  destruct H as (pds & _ & H). injection H as -> _. apply (Hc pds). reflexivity.
Qed.

(** X3.  The order of the steps of [publish]: whatever comes before an
    [addWriterGroup] call in the trace is the accepted field call of every
    element of [datas], in order; whatever comes before a
    [setWriterGroupOperational] call is that followed by the accepted
    [addWriterGroup] call, and the group is the one whose id the object
    holds afterwards; whatever comes before an [addDataSetWriter] call is
    all of that followed by the accepted [setWriterGroupOperational] call
    on the same group, and the writer is for the published data set of the
    object. *)
Theorem publish_order (datas : list PublishedDataSet) (d : spec_float)
    (w : world) :
  (forall pre post conn cfg st,
     trace_of (publish' datas d w)
     = pre ++ Called (call_addWriterGroup conn cfg) st :: post ->
     pre = accepted_fields (this w) datas)
  /\
  (forall pre post wg st,
     trace_of (publish' datas d w)
     = pre ++ Called (call_setWriterGroupOperational wg) st :: post ->
     pre = accepted_fields (this w) datas
           ++ [Called (call_addWriterGroup (_connection_id (this w))
                         (wg_config std_hash (_name (this w)) d))
                 UA_STATUSCODE_GOOD]
     /\ wg = _wg_id (this (state_of (publish' datas d w))))
  /\
  (forall pre post wg pds cfg st,
     trace_of (publish' datas d w)
     = pre ++ Called (call_addDataSetWriter wg pds cfg) st :: post ->
     pre = accepted_fields (this w) datas
           ++ [Called (call_addWriterGroup (_connection_id (this w))
                         (wg_config std_hash (_name (this w)) d))
                 UA_STATUSCODE_GOOD;
               Called (call_setWriterGroupOperational wg) UA_STATUSCODE_GOOD]
     /\ pds = _pds_id (this w)).
Proof.
  destruct (publish_outcomes lib std_hash KEY_FRAME_COUNT datas d w)
    as [E | [E | (b & p' & s' & t & E & Hrun)]]; rewrite E;
    cbn [state_of trace_of fst snd this].
  1, 2: repeat split; intros;
        match goal with H : [] = ?l ++ _ :: _ |- _ => destruct l; discriminate H end.
  assert (HnW : forall l conn cfg st,
             ~ In (Called (call_addWriterGroup conn cfg) st)
                  (accepted_fields (this w) l))
    by (intros; apply not_in_accepted; intros; discriminate).
  assert (HnO : forall l wg st,
             ~ In (Called (call_setWriterGroupOperational wg) st)
                  (accepted_fields (this w) l))
    by (intros; apply not_in_accepted; intros; discriminate).
  assert (HnD : forall l wg pds cfg st,
             ~ In (Called (call_addDataSetWriter wg pds cfg) st)
                  (accepted_fields (this w) l))
    by (intros; apply not_in_accepted; intros; discriminate).
  destruct Hrun as [done pds0 rest st0 Hd Hst | st0 out Hst | st0 out Hst
                   | st0 out out3 Hst | out out3];
    (split; [ | split ]).
  all: intros pre post.
  all: try (intros conn cfg st Heq;
            apply app_eq_app_notin in Heq; [ | apply HnW ];
            destruct Heq as (pre2 & -> & Heq); tail_inv Heq pre2).
  all: try (intros wg st Heq;
            apply app_eq_app_notin in Heq; [ | apply HnO ];
            destruct Heq as (pre2 & -> & Heq); tail_inv Heq pre2).
  all: try (intros wg pds cfg st Heq;
            apply app_eq_app_notin in Heq; [ | apply HnD ];
            destruct Heq as (pre2 & -> & Heq); tail_inv Heq pre2).
  all: subst; rewrite ?app_nil_r; try reflexivity.
  all: injection Heq; intros; subst; split; reflexivity.
Qed.

End PublishAnswers.

(** *** The calls of the publisher on the sample library *)

Lemma refused_field_run :
  trace_of (publish scripted_lib sample_hash 10 sample_datas sample_duration
              (sample_world ready_publisher [0; 7]))
  = [ Called (field_call ready_publisher
                {| pd_name := "speed"; pd_node_id := mkNodeId 1 (numeric 100) |}) 0;
      Called (field_call ready_publisher
                {| pd_name := "angle"; pd_node_id := mkNodeId 1 (numeric 101) |}) 7;
      Logged (Failed_to_add_dataset_field "angle" 7) ].
Proof. vm_compute. reflexivity. Qed.

(** C1 on a connected publisher.  With a library that accepts every call
    the result is [true] and the five calls of the trace are the library's
    answers; with a library that refuses the second field with status 7 the
    result is [false]. *)
Lemma publish_true_iff_all_good_witness :
  (_server (this (sample_world ready_publisher [])) <> nullptr
   /\ UA_NodeId_isNull scripted_lib
        (_connection_id (this (sample_world ready_publisher []))) = false)
  /\ result_of (publish scripted_lib sample_hash 10 sample_datas
                  sample_duration (sample_world ready_publisher []))
     = Ret true
  /\ all_calls_good
       (trace_of (publish scripted_lib sample_hash 10 sample_datas
                    sample_duration (sample_world ready_publisher [])))
  /\ answered_by scripted_lib 4096 {| answers := []; issued := 2 |}
       (trace_of (publish scripted_lib sample_hash 10 sample_datas
                    sample_duration (sample_world ready_publisher [])))
       {| answers := []; issued := 6 |}
  /\ result_of (publish scripted_lib sample_hash 10 sample_datas
                  sample_duration (sample_world ready_publisher [0; 7]))
     = Ret false.
Proof.
  assert (Hs : _server (this (sample_world ready_publisher [])) <> nullptr)
    by (vm_compute; discriminate).
  assert (Hc : UA_NodeId_isNull scripted_lib
                 (_connection_id (this (sample_world ready_publisher [])))
               = false) by reflexivity.
  destruct (publish_true_iff_all_good scripted_lib sample_hash 10
              sample_datas sample_duration (sample_world ready_publisher []))
    as (Hans & _ & _ & Hpast).
  destruct (Hpast Hs Hc) as (b & Hb & Hiff).
  destruct (publish_true_iff_all_good scripted_lib sample_hash 10
              sample_datas sample_duration
              (sample_world ready_publisher [0; 7]))
    as (_ & _ & Hrefused & _).
  assert (Htrue : result_of (publish scripted_lib sample_hash 10 sample_datas
                               sample_duration (sample_world ready_publisher []))
                  = Ret true) by (rewrite ready_run; reflexivity).
  split; [ split; assumption | ].
  split; [ exact Htrue | ].
  split; [ | split ].
  - apply Hiff. rewrite Htrue in Hb. injection Hb as <-. reflexivity.
  - rewrite ready_run in Hans. rewrite ready_run. exact Hans.
  - apply Hrefused. rewrite refused_field_run. intros H.
    inversion H as [ | ? ? _ H2 ]; subst.
    inversion H2 as [ | ? ? Hbad _ ]; subst. discriminate Hbad.
Defined.

(** C2 (as amended) on the same two runs: five calls, the last one good,
    when the library accepts everything; two calls, the last one refused,
    when it refuses the second field. *)
Lemma publish_call_sequence_witness :
  (_server (this (sample_world ready_publisher [])) <> nullptr
   /\ UA_NodeId_isNull scripted_lib
        (_connection_id (this (sample_world ready_publisher []))) = false)
  /\ calls_of
       (trace_of (publish scripted_lib sample_hash 10 sample_datas
                    sample_duration (sample_world ready_publisher [])))
       `prefix_of` expected_calls sample_hash 10
                     (this (sample_world ready_publisher []))
                     sample_datas sample_duration
                     (_wg_id (this (state_of
                        (publish scripted_lib sample_hash 10 sample_datas
                           sample_duration (sample_world ready_publisher [])))))
  /\ (length
        (calls_of
           (trace_of (publish scripted_lib sample_hash 10 sample_datas
                        sample_duration (sample_world ready_publisher []))))
      <= length sample_datas + 3)%nat
  /\ length
       (calls_of
          (trace_of (publish scripted_lib sample_hash 10 sample_datas
                       sample_duration (sample_world ready_publisher []))))
     = 5%nat
  /\ called
       (trace_of (publish scripted_lib sample_hash 10 sample_datas
                    sample_duration (sample_world ready_publisher [0; 7])))
     = [ (field_call ready_publisher
            {| pd_name := "speed"; pd_node_id := mkNodeId 1 (numeric 100) |}, 0);
         (field_call ready_publisher
            {| pd_name := "angle"; pd_node_id := mkNodeId 1 (numeric 101) |}, 7) ].
Proof.
  assert (Hs : _server (this (sample_world ready_publisher [])) <> nullptr)
    by (vm_compute; discriminate).
  assert (Hc : UA_NodeId_isNull scripted_lib
                 (_connection_id (this (sample_world ready_publisher [])))
               = false) by reflexivity.
  destruct (publish_call_sequence scripted_lib sample_hash 10
              sample_datas sample_duration (sample_world ready_publisher [])
              Hs Hc)
    as (_ & Hpre & _ & Hlen).
  split; [ split; assumption | ].
  split; [ exact Hpre | split; [ exact Hlen | split ] ].
  - rewrite ready_run. reflexivity.
  - rewrite refused_field_run. reflexivity.
Defined.
